(** * Airflow web utilities and the TaskTag migration

    A shallow embedding of [airflow/www/utils.py] and of the Alembic
    migration [19d8a998c007_add_tasktag_table.py], with the properties
    the specification states about them.

    Python values are modelled as follows.
    - [int] is [Z].
    - [str] is [string], the bytes of its UTF-8 encoding, which is what
      [quote_plus] works on; [strip] and [lower] act on the ASCII range as
      Python's do and leave other bytes alone.
    - [None]-able arguments are [option]s.
    - a [set] of strings is a [gset string]; keyword arguments, whose
      order [urlencode] keeps, are an association list.
    - a call that may raise returns a [result]. *)

From Stdlib Require Import ZArith Lia Bool Ascii String DecimalString.
From stdpp Require Import base option list strings gmap.

Local Open Scope string_scope.
Local Open Scope Z_scope.

(** ** Python built-ins used by the module *)

Module Py.

(** [list(range(a, b))]: empty as soon as [b <= a]. *)
Definition range (a b : Z) : list Z := seqZ a (b - a).

(** [x] rounded to the 53 significant bits of a double, ties to the even
    neighbour: the integer nearest to [x] among the multiples of
    [2 ^ shift], where [shift] is what the length of [|x|] exceeds 53 bits
    by.  An integer of at most 53 bits is a double as it is. *)
Definition round53 (x : Z) : Z :=
  let a := Z.abs x in
  let shift := Z.log2 a - 52 in
  if shift <=? 0 then x
  else
    let ulp := 2 ^ shift in
    let q := a / ulp in
    let r := a mod ulp in
    let q' :=
      if (ulp <? 2 * r) || ((2 * r =? ulp) && Z.odd q) then q + 1 else q in
    Z.sgn x * (q' * ulp).

(** [x / 2] on an [int x] is the double nearest to the quotient; halving
    only lowers the exponent, so that double is half of [round53 x].  The
    division raises [OverflowError] when this is no finite double, that is
    from [2 ^ 1024] on in size. *)
Definition truediv2_overflows (x : Z) : bool :=
  2 ^ 1025 <=? Z.abs (round53 x).

(** [int(x / 2)] on an [int x], when the division does not overflow: the
    double [x / 2], truncated toward zero.  It is the exact quotient up to
    [|x| = 2^53 + 2]; [2^53 + 3] is the first to get [x / 2 + 1]. *)
Definition int_truediv2 (x : Z) : Z := Z.quot (round53 x) 2.

(** [str(n)] for an [int]. *)
Definition str_of_int (n : Z) : string := NilZero.string_of_int (Z.to_int n).

(** The double quote character, which string literals here avoid. *)
Definition dq : string := String (ascii_of_nat 34) "".

(** The newline character. *)
Definition nl : string := String (ascii_of_nat 10) "".

(** [sep.join(l)]. *)
Fixpoint join (sep : string) (l : list string) : string :=
  match l with
  | [] => ""
  | [x] => x
  | x :: rest => x +:+ sep +:+ join sep rest
  end.

(** [c.isspace()] on an ASCII character of a [str]: tab, line feed,
    vertical tab, form feed, carriage return, the four separators
    0x1c-0x1f, and space. *)
Definition isspace (c : ascii) : bool :=
  let n := nat_of_ascii c in
  ((9 <=? n) && (n <=? 13) || (28 <=? n) && (n <=? 32))%nat.

Fixpoint lstrip (s : string) : string :=
  match s with
  | String c s' => if isspace c then lstrip s' else s
  | "" => ""
  end.

(** [rstrip] keeps a character when it is not a space or when something
    is kept after it. *)
Fixpoint rstrip (s : string) : string :=
  match s with
  | String c s' =>
      match rstrip s' with
      | "" => if isspace c then "" else String c ""
      | r => String c r
      end
  | "" => ""
  end.

(** [s.strip()] on ASCII text; the interpreter also strips the white space
    beyond ASCII, such as U+00A0. *)
Definition strip (s : string) : string := rstrip (lstrip s).

Definition lower_char (c : ascii) : ascii :=
  let n := nat_of_ascii c in
  if ((65 <=? n) && (n <=? 90))%nat then ascii_of_nat (n + 32) else c.

(** [s.lower()] on ASCII text; the interpreter also lowers the letters
    beyond ASCII. *)
Fixpoint lower (s : string) : string :=
  match s with
  | String c s' => String (lower_char c) (lower s')
  | "" => ""
  end.

(** [s.split(sep)] for a one-character separator: always at least one
    piece, and empty pieces are kept. *)
Fixpoint split (sep : ascii) (s : string) : list string :=
  match s with
  | "" => [""]
  | String c s' =>
      if Ascii.eqb c sep then "" :: split sep s'
      else match split sep s' with
           | p :: ps => String c p :: ps
           | [] => [String c ""]
           end
  end.

(** [s in t] on strings: [s] occurs in [t] as a contiguous substring. *)
Fixpoint contains (s t : string) : bool :=
  String.prefix s t ||
  match t with
  | String _ t' => contains s t'
  | "" => false
  end.

(** Truth value of a string: non-empty. *)
Definition truthy (s : string) : bool :=
  match s with "" => false | _ => true end.

End Py.

(** Calls that may raise return a [result]. *)

Inductive exn : Type :=
  | AttributeError (name : string)
  | OverflowError (msg : string)
  | DatabaseError (msg : string)
  | LibraryError (msg : string).

Inductive result (A : Type) : Type :=
  | Ok (a : A)
  | Raise (e : exn).

Arguments Ok {A} a.
Arguments Raise {A} e.

Definition bind {A B : Type} (r : result A) (k : A -> result B) : result B :=
  match r with
  | Ok a => k a
  | Raise e => Raise e
  end.

Notation "'let*' x ':=' r 'in' k" := (bind r (fun x => k))
  (at level 10, x name, r at level 100, k at level 200).

(** ** [urllib.parse]: [quote_plus] and [urlencode] *)

Module Urllib.

Definition in_range (lo hi : nat) (c : ascii) : bool :=
  let n := nat_of_ascii c in ((lo <=? n) && (n <=? hi))%nat.

(** The characters [quote] never escapes: letters, digits and [_.-~]. *)
Definition always_safe (c : ascii) : bool :=
  in_range 65 90 c || in_range 97 122 c || in_range 48 57 c ||
  Ascii.eqb c "_" || Ascii.eqb c "." || Ascii.eqb c "-" || Ascii.eqb c "~".

Definition hex_digit (n : nat) : ascii :=
  if (n <? 10)%nat then ascii_of_nat (48 + n) else ascii_of_nat (55 + n).

(** [%XX], two upper-case hexadecimal digits. *)
Definition percent (c : ascii) : string :=
  let n := nat_of_ascii c in
  String "%" (String (hex_digit (n / 16)) (String (hex_digit (n mod 16)) "")).

Definition quote_plus_char (c : ascii) : string :=
  if always_safe c then String c ""
  else if Ascii.eqb c " " then "+"
  else percent c.

(** [quote_plus(s)] with no extra safe characters. *)
Fixpoint quote_plus (s : string) : string :=
  match s with
  | String c s' => quote_plus_char c +:+ quote_plus s'
  | "" => ""
  end.

(** The values the module passes to [urlencode]: page numbers and the
    search and status texts.  [str] is what [urlencode] applies to a value
    before quoting it. *)
Inductive value : Type :=
  | VInt (n : Z)
  | VStr (s : string).

Definition str (v : value) : string :=
  match v with
  | VInt n => Py.str_of_int n
  | VStr s => s
  end.

(** One [key=value] field of the query string. *)
Definition field (kv : string * value) : string :=
  quote_plus (fst kv) +:+ "=" +:+ quote_plus (str (snd kv)).

(** [urlencode(query)] on a dict, whose items come in insertion order. *)
Definition urlencode (query : list (string * value)) : string :=
  Py.join "&" (map field query).

End Urllib.

(** ** [markupsafe]: escaping in [Markup.format] *)

Module Markupsafe.

Definition escape_char (c : ascii) : string :=
  if Ascii.eqb c "&" then "&amp;"
  else if Ascii.eqb c ">" then "&gt;"
  else if Ascii.eqb c "<" then "&lt;"
  else if Ascii.eqb c "'" then "&#39;"
  else if Ascii.eqb c (ascii_of_nat 34) then "&#34;"
  else String c "".

(** [escape(s)], applied by [Markup.format] to every argument that is not
    itself markup. *)
Fixpoint escape (s : string) : string :=
  match s with
  | String c s' => escape_char c +:+ escape s'
  | "" => ""
  end.

(** [name="value"] inside a tag of a template. *)
Definition attr (name value : string) : string :=
  name +:+ "=" +:+ Py.dq +:+ value +:+ Py.dq.

End Markupsafe.

(** ** [airflow.www.utils]: sensitive variable fields *)

Module Utils.

Import Urllib Markupsafe.

(** What the module reads of [airflow.configuration.conf]: the value of
    [conf.get('admin', 'sensitive_variable_fields')] and that of
    [conf.getboolean('admin', 'hide_sensitive_variable_fields')]. *)
Record conf : Type := {
  sensitive_variable_fields : string;
  hide_sensitive_variable_fields : bool
}.

(** Modelled from the spec: the default configuration, which is not part
    of the sources: the toggle enabled and no extra sensitive field. *)
Definition default_conf : conf :=
  {| sensitive_variable_fields := ""; hide_sensitive_variable_fields := true |}.

Definition DEFAULT_SENSITIVE_VARIABLE_FIELDS : list string :=
  [ "password"; "secret"; "passwd"; "authorization"; "api_key"; "apikey";
    "access_token" ].

Definition get_sensitive_variables_fields (c : conf) : gset string :=
  let sensitive_fields : gset string :=
    list_to_set DEFAULT_SENSITIVE_VARIABLE_FIELDS in
  if Py.truthy (sensitive_variable_fields c) then
    sensitive_fields ∪
    list_to_set (map Py.strip (Py.split "," (sensitive_variable_fields c)))
  else sensitive_fields.

(** [key_name] is [None], or a string that may be empty. *)
Definition should_hide_value_for_key (c : conf) (key_name : option string) : bool :=
  match key_name with
  | Some key =>
      if Py.truthy key then
        let config_set := hide_sensitive_variable_fields c in
        let field_comp :=
          existsb (fun s => Py.contains s (Py.lower (Py.strip key)))
                  (elements (get_sensitive_variables_fields c)) in
        config_set && field_comp
      else false
  | None => false
  end.

(** ** [airflow.www.utils]: [get_params] and [generate_pages] *)

(** The dict comprehension of [get_params]: the items whose value is not
    [None], in the order of the keyword arguments. *)
Fixpoint not_none (kwargs : list (string * option value)) : list (string * value) :=
  match kwargs with
  | (d, Some v) :: rest => (d, v) :: not_none rest
  | (_, None) :: rest => not_none rest
  | [] => []
  end.

Definition get_params (kwargs : list (string * option value)) : string :=
  urlencode (not_none kwargs).

Section GeneratePages.

Variables (current_page num_of_pages : Z).
Variables (search status : option string).
Variable (window : Z).

Definition void_link : string := "javascript:void(0)".

(** The [<a ...>] line the five templates share, up to its content. *)
Definition anchor (href_link dt_idx content : string) : string :=
  "    <a " +:+ attr "href" href_link +:+ " " +:+ attr "aria-controls" "dags"
  +:+ " " +:+ attr "data-dt-idx" dt_idx +:+ " " +:+ attr "tabindex" "0"
  +:+ ">" +:+ content +:+ "</a>".

(** [first_node.format(href_link=..., disabled=...)] and its siblings: the
    template with its escaped arguments in place. *)
Definition first_node (href_link disabled : string) : string :=
  "<li " +:+ attr "class" ("paginate_button " +:+ escape disabled) +:+ " "
  +:+ attr "id" "dags_first" +:+ ">" +:+ Py.nl
  +:+ anchor (escape href_link) "0" "&laquo;" +:+ Py.nl +:+ "</li>".

Definition previous_node (href_link disabled : string) : string :=
  "<li " +:+ attr "class" ("paginate_button previous " +:+ escape disabled)
  +:+ " " +:+ attr "id" "dags_previous" +:+ ">" +:+ Py.nl
  +:+ anchor (escape href_link) "0" "&lsaquo;" +:+ Py.nl +:+ "</li>".

Definition next_node (href_link disabled : string) : string :=
  "<li " +:+ attr "class" ("paginate_button next " +:+ escape disabled)
  +:+ " " +:+ attr "id" "dags_next" +:+ ">" +:+ Py.nl
  +:+ anchor (escape href_link) "3" "&rsaquo;" +:+ Py.nl +:+ "</li>".

Definition last_node (href_link disabled : string) : string :=
  "<li " +:+ attr "class" ("paginate_button " +:+ escape disabled) +:+ " "
  +:+ attr "id" "dags_last" +:+ ">" +:+ Py.nl
  +:+ anchor (escape href_link) "3" "&raquo;" +:+ Py.nl +:+ "</li>".

Definition page_node (is_active href_link : string) (page_num : Z) : string :=
  "<li " +:+ attr "class" ("paginate_button " +:+ escape is_active) +:+ ">"
  +:+ Py.nl
  +:+ anchor (escape href_link) "2" (escape (Py.str_of_int page_num))
  +:+ Py.nl +:+ "</li>".

(** ['?{}'.format(get_params(page=page, search=search, status=status))],
    the expression behind every link of the pager. *)
Definition query_link (page : Z) : string :=
  "?" +:+ get_params [ ("page", Some (VInt page));
                       ("search", VStr <$> search);
                       ("status", VStr <$> status) ].

(** [is_disabled] as first assigned, for the first and previous controls. *)
Definition is_disabled_start : string :=
  if current_page <=? 0 then "disabled" else "".

Definition first_link : string := query_link 0.

Definition previous_link : string :=
  if 0 <? current_page then query_link (current_page - 1) else void_link.

Definition mid : Z := Py.int_truediv2 window.
Definition last_page : Z := num_of_pages - 1.

Definition pages : list Z :=
  if (current_page <=? mid) || (num_of_pages <? window) then
    Py.range 0 (Z.min num_of_pages window)
  else if (mid <? current_page) && (current_page <? last_page - mid) then
    Py.range (current_page - mid) (current_page + mid + 1)
  else
    Py.range (num_of_pages - window) (last_page + 1).

Definition is_current (current page : Z) : bool := page =? current.

(** The body of the loop over [pages]: the [vals] of one page. *)
Definition page_is_active (page : Z) : string :=
  if is_current current_page page then "active" else "".

Definition page_link (page : Z) : string :=
  if is_current current_page page then void_link else query_link page.

Definition page_item (page : Z) : string :=
  page_node (page_is_active page) (page_link page) (page + 1).

(** [is_disabled] as assigned again, for the next and last controls. *)
Definition is_disabled_end : string :=
  if num_of_pages - 1 <=? current_page then "disabled" else "".

Definition next_link : string :=
  if num_of_pages - 1 <=? current_page then void_link
  else query_link (current_page + 1).

Definition last_link : string := query_link last_page.

Definition first_item : string := first_node first_link is_disabled_start.
Definition previous_item : string := previous_node previous_link is_disabled_start.
Definition next_item : string := next_node next_link is_disabled_end.
Definition last_item : string := last_node last_link is_disabled_end.

(** The list [output], in the order of the [append]s. *)
Definition output : list string :=
  [ "<ul " +:+ attr "class" "pagination" +:+ " "
    +:+ attr "style" "margin-top:0;" +:+ ">" ]
  ++ [ first_item; previous_item ]
  ++ map page_item pages
  ++ [ next_item; last_item ]
  ++ [ "</ul>" ].

(** What the function returns when it returns. *)
Definition generate_pages : string := Py.join Py.nl output.


End GeneratePages.

(** ** [airflow.www.utils]: UTC-aware filters *)

(** The filter classes, with Flask-AppBuilder's comparison filters and
    their base class. *)
Inductive class : Type :=
  | object
  | BaseFilter
  | FilterEqual
  | FilterGreater
  | FilterSmaller
  | FilterNotEqual
  | UtcAwareFilterMixin
  | UtcAwareFilterEqual
  | UtcAwareFilterGreater
  | UtcAwareFilterSmaller
  | UtcAwareFilterNotEqual.

#[global] Instance class_eq_dec : EqDecision class.
Proof. solve_decision. Defined.

(** The bases of each [class] statement, in order. *)
Definition bases (c : class) : list class :=
  match c with
  | object => []
  | BaseFilter => [object]
  | FilterEqual | FilterGreater | FilterSmaller | FilterNotEqual => [BaseFilter]
  | UtcAwareFilterMixin => [object]
  | UtcAwareFilterEqual => [UtcAwareFilterMixin; FilterEqual]
  | UtcAwareFilterGreater => [UtcAwareFilterMixin; FilterGreater]
  | UtcAwareFilterSmaller => [UtcAwareFilterMixin; FilterSmaller]
  | UtcAwareFilterNotEqual => [UtcAwareFilterMixin; FilterNotEqual]
  end.

(** Python's method resolution order (C3 linearisation): the class, then
    the merge of the orders of its bases and of the list of bases, which
    takes at each step the first head that is in no tail. *)
Definition in_tail (c : class) (l : list class) : bool :=
  match l with
  | _ :: t => bool_decide (c ∈ t)
  | [] => false
  end.

Definition good_head (ls : list (list class)) (c : class) : bool :=
  forallb (fun l => negb (in_tail c l)) ls.

Definition drop_head (c : class) (l : list class) : list class :=
  match l with
  | h :: t => if bool_decide (h = c) then t else l
  | [] => []
  end.

Definition nonempty (l : list class) : bool :=
  match l with [] => false | _ => true end.

Fixpoint merge (fuel : nat) (ls : list (list class)) : option (list class) :=
  match fuel with
  | O => None
  | S fuel' =>
      match List.filter nonempty ls with
      | [] => Some []
      | ls' =>
          match List.find (good_head ls') (omap head ls') with
          | Some c => cons c <$> merge fuel' (map (drop_head c) ls')
          | None => None
          end
      end
  end.

Fixpoint mro_fuel (fuel : nat) (c : class) : option (list class) :=
  match fuel with
  | O => None
  | S fuel' =>
      match mapM (mro_fuel fuel') (bases c) with
      | Some ls => cons c <$> merge (S (length (concat ls))) (ls ++ [bases c])
      | None => None
      end
  end.

(** The hierarchy is three classes deep. *)
Definition mro (c : class) : option (list class) := mro_fuel 4 c.

Section Filters.

(** Queries and comparison values are Python objects of the ORM. *)
Variables (query pyvalue tzinfo : Type).

(** [airflow.utils.timezone]: [parse(value, timezone=...)] and [utc]. *)
Variable timezone_parse : pyvalue -> tzinfo -> result pyvalue.
Variable timezone_utc : tzinfo.

(** The [apply] each Flask-AppBuilder filter class defines. *)
Variable fab_apply : class -> query -> pyvalue -> result query.

(** A method body, given what [super().apply] resolves to. *)
Definition method : Type :=
  (query -> pyvalue -> result query) -> query -> pyvalue -> result query.

(** The [apply] a class defines in its own body, if any. *)
Definition own_apply (c : class) : option method :=
  match c with
  | UtcAwareFilterMixin =>
      Some (fun super_apply query value =>
              let* value := timezone_parse value timezone_utc in
              super_apply query value)
  | BaseFilter | FilterEqual | FilterGreater | FilterSmaller | FilterNotEqual =>
      Some (fun _ => fab_apply c)
  | object | UtcAwareFilterEqual | UtcAwareFilterGreater
  | UtcAwareFilterSmaller | UtcAwareFilterNotEqual => None
  end.

(** Attribute lookup along an order: the first class that defines [apply],
    with [super()] bound to the lookup along the rest of the order. *)
Fixpoint resolve (order : list class) : query -> pyvalue -> result query :=
  match order with
  | c :: rest =>
      match own_apply c with
      | Some m => m (resolve rest)
      | None => resolve rest
      end
  | [] => fun _ _ => Raise (AttributeError "apply")
  end.

(** [f.apply(query, value)] on an instance [f] of class [c]. *)
Definition apply (c : class) (q : query) (value : pyvalue) : result query :=
  match mro c with
  | Some order => resolve order q value
  | None => Raise (LibraryError "inconsistent method resolution order")
  end.

End Filters.

Arguments apply {query pyvalue tzinfo} timezone_parse timezone_utc fab_apply c q value.

(** The four comparisons and the classes that implement them. *)
Inductive comparison : Type := Equal | Greater | Smaller | NotEqual.

Definition fab_filter (k : comparison) : class :=
  match k with
  | Equal => FilterEqual
  | Greater => FilterGreater
  | Smaller => FilterSmaller
  | NotEqual => FilterNotEqual
  end.

Definition utc_aware_filter (k : comparison) : class :=
  match k with
  | Equal => UtcAwareFilterEqual
  | Greater => UtcAwareFilterGreater
  | Smaller => UtcAwareFilterSmaller
  | NotEqual => UtcAwareFilterNotEqual
  end.

(** ** [airflow.www.utils]: the data model interface and the converters *)

(** The mapped classes a relation may point to. *)
Inductive model : Type :=
  | TaskTag
  | TaskInstance
  | OtherModel (name : string).

#[global] Instance model_eq_dec : EqDecision model.
Proof. solve_decision. Defined.

(** Column types, as far as [is_utcdatetime] inspects them. *)
Inductive sqltype : Type :=
  | UtcDateTime
  | TypeDecorator (impl : sqltype)
  | OtherType (name : string).

Definition isinstance_UtcDateTime (t : sqltype) : bool :=
  match t with UtcDateTime => true | _ => false end.

Definition isinstance_TypeDecorator (t : sqltype) : bool :=
  match t with TypeDecorator _ => true | _ => false end.

Definition impl (t : sqltype) : sqltype :=
  match t with TypeDecorator i => i | _ => t end.

(** What [CustomSQLAInterface] inherits from Flask-AppBuilder's
    [SQLAInterface]: the keys of [list_properties] and the types of
    [list_columns], the relation tests with the cardinality of each
    relation, and the type tests [FieldConverter] looks up by name. *)
Record SQLAInterface : Type := {
  list_properties : gset string;
  list_columns : gmap string sqltype;
  is_relation : string -> bool;
  get_related_model : string -> model;
  is_many_to_one : string -> bool;
  is_one_to_one : string -> bool;
  is_many_to_many : string -> bool;
  is_one_to_many : string -> bool;
  type_marker : string -> string -> bool
}.

Definition is_utcdatetime (self : SQLAInterface) (col_name : string) : bool :=
  match list_columns self !! col_name with
  | Some obj =>
      isinstance_UtcDateTime obj ||
      isinstance_TypeDecorator obj && isinstance_UtcDateTime (impl obj)
  | None => false
  end.

Definition is_tasktag (self : SQLAInterface) (col_name : string) : bool :=
  if bool_decide (col_name ∈ list_properties self) && is_relation self col_name
  then
    let cls := get_related_model self col_name in
    bool_decide (cls = TaskTag)
  else false.

(** The data model [dm] with other answers to the cardinality tests. *)
Definition with_cardinality (dm : SQLAInterface)
    (m2o o2o m2m o2m : string -> bool) : SQLAInterface :=
  {| list_properties := list_properties dm;
     list_columns := list_columns dm;
     is_relation := is_relation dm;
     get_related_model := get_related_model dm;
     is_many_to_one := m2o;
     is_one_to_one := o2o;
     is_many_to_many := m2m;
     is_one_to_many := o2m;
     type_marker := type_marker dm |}.

(** Form fields and widgets named in the conversion table. *)
Inductive form_field : Type :=
  | DateTimeWithTimezoneField
  | StringField
  | OtherField (name : string).

Inductive widget : Type :=
  | AirflowDateTimePickerWidget
  | BS3TextFieldWidget
  | OtherWidget (name : string).

(** [FieldConverter.conversion_table] after the assignment that ends the
    module: the two Airflow rows, then Flask-AppBuilder's own. *)
Definition conversion_table (fab_table : list (string * form_field * widget))
  : list (string * form_field * widget) :=
  [ ("is_utcdatetime", DateTimeWithTimezoneField, AirflowDateTimePickerWidget);
    ("is_tasktag", StringField, BS3TextFieldWidget) ]
  ++ fab_table.

(** [getattr(self.datamodel, marker)(col_name)]. *)
Definition call_marker (dm : SQLAInterface) (marker col_name : string) : bool :=
  if String.eqb marker "is_utcdatetime" then is_utcdatetime dm col_name
  else if String.eqb marker "is_tasktag" then is_tasktag dm col_name
  else type_marker dm marker col_name.

(** The row [FieldConverter.convert] uses: the first whose marker holds. *)
Fixpoint convert (dm : SQLAInterface) (col_name : string)
    (table : list (string * form_field * widget)) : option (form_field * widget) :=
  match table with
  | (marker, field, w) :: rest =>
      if call_marker dm marker col_name then Some (field, w)
      else convert dm col_name rest
  | [] => None
  end.

Module TaskTagModelConverter.

Section Converter.

(** Validators, relation filters and the form properties being built. *)
Variables (validators rel_filters props : Type).

(** [self.datamodel]. *)
Variable datamodel : SQLAInterface.

(** The two methods of [GeneralModelConverter] the override calls:
    [_convert_simple], and [_convert_col] as [super()] resolves it. *)
Variable _convert_simple :
  string -> string -> string -> validators -> props -> result props.
Variable super_convert_col :
  string -> string -> string -> validators -> rel_filters -> props -> result props.

Definition _convert_col (col_name label description : string)
    (lst_validators : validators) (filter_rel_fields : rel_filters)
    (form_props : props) : result props :=
  if is_tasktag datamodel col_name then
    _convert_simple col_name label description lst_validators form_props
  else
    super_convert_col col_name label description lst_validators
                      filter_rel_fields form_props.

End Converter.

Arguments _convert_col {validators rel_filters props} datamodel
  _convert_simple super_convert_col col_name label description
  lst_validators filter_rel_fields form_props.

End TaskTagModelConverter.

End Utils.

(** ** [airflow.www.utils]: sensitive variable fields on every string

    [str.strip] and [str.lower] know all of Unicode: they remove
    [U+00A0] and turn the Kelvin sign into [k], which [Py.strip] and
    [Py.lower] above do not.  Here the two methods are parameters, the
    interpreter's own, and the functions are the same text as above. *)

Module Sensitive.

Import Utils.

Section Str.

(** [s.strip()] and [s.lower()] of the interpreter, on UTF-8 text. *)
Variables (str_strip str_lower : string -> string).

Definition get_sensitive_variables_fields (c : conf) : gset string :=
  let sensitive_fields : gset string :=
    list_to_set DEFAULT_SENSITIVE_VARIABLE_FIELDS in
  if Py.truthy (sensitive_variable_fields c) then
    sensitive_fields ∪
    list_to_set (map str_strip (Py.split "," (sensitive_variable_fields c)))
  else sensitive_fields.

Definition should_hide_value_for_key (c : conf) (key_name : option string) : bool :=
  match key_name with
  | Some key =>
      if Py.truthy key then
        let config_set := hide_sensitive_variable_fields c in
        let field_comp :=
          existsb (fun s => Py.contains s (str_lower (str_strip key)))
                  (elements (get_sensitive_variables_fields c)) in
        config_set && field_comp
      else false
  | None => false
  end.

End Str.

(** Every byte is an ASCII character. *)
Fixpoint is_ascii (s : string) : bool :=
  match s with
  | String c s' => (nat_of_ascii c <? 128)%nat && is_ascii s'
  | "" => true
  end.

(** On ASCII text the interpreter's method does what the ASCII one
    does. *)
Definition agrees_on_ascii (f g : string -> string) : Prop :=
  forall s, is_ascii s = true -> f s = g s.

End Sensitive.

(** ** The migration [19d8a998c007_add_tasktag_table] *)

Module Migration.

(** A column of [op.create_table]: its name and type, the sequence its
    server default draws from, and whether it may be null. *)
Record column : Type := {
  column_name : string;
  column_type : string;
  server_default : option string;
  nullable : bool
}.

Record table : Type := {
  columns : list column;
  primary_key : list string
}.

(** The part of the database schema the migration acts on. *)
Record schema : Type := {
  sequences : gset string;
  tables : gmap string table
}.

Inductive ddl : Type :=
  | CreateSequence (name : string)
  | CreateTable (name : string) (t : table)
  | DropTable (name : string)
  | DropSequence (name : string).

(** The sequences the columns of a table draw their defaults from. *)
Definition uses_sequence (seq : string) (t : table) : bool :=
  existsb (fun c => bool_decide (server_default c = Some seq)) (columns t).

Definition sequence_in_use (seq : string) (s : schema) : bool :=
  bool_decide (map_Exists (fun _ t => uses_sequence seq t = true) (tables s)).

Definition defaults_exist (t : table) (s : schema) : bool :=
  forallb (fun c => match server_default c with
                    | Some seq => bool_decide (seq ∈ sequences s)
                    | None => true
                    end) (columns t).

(** A schema is well formed when the sequence behind every column default
    exists. *)
Definition schema_wf (s : schema) : Prop :=
  forall name t, tables s !! name = Some t -> defaults_exist t s = true.

(** What the database does with each statement.  Creating what exists and
    dropping what does not are errors, a default needs its sequence, and a
    sequence that a column default depends on cannot be dropped.  These
    are errors every database raises; a database may refuse more (one that
    keeps tables, sequences and indexes in one name space refuses a table
    named like a sequence), so [Ok] here is no promise that it accepts. *)
Definition execute (stmt : ddl) (s : schema) : result schema :=
  match stmt with
  | CreateSequence name =>
      if bool_decide (name ∈ sequences s)
      then Raise (DatabaseError "sequence already exists")
      else Ok {| sequences := {[ name ]} ∪ sequences s; tables := tables s |}
  | CreateTable name t =>
      if bool_decide (is_Some (tables s !! name))
      then Raise (DatabaseError "table already exists")
      else if negb (defaults_exist t s)
      then Raise (DatabaseError "sequence does not exist")
      else Ok {| sequences := sequences s; tables := <[ name := t ]> (tables s) |}
  | DropTable name =>
      if bool_decide (is_Some (tables s !! name))
      then Ok {| sequences := sequences s; tables := delete name (tables s) |}
      else Raise (DatabaseError "table does not exist")
  | DropSequence name =>
      if negb (bool_decide (name ∈ sequences s))
      then Raise (DatabaseError "sequence does not exist")
      else if sequence_in_use name s
      then Raise (DatabaseError "other objects depend on the sequence")
      else Ok {| sequences := sequences s ∖ {[ name ]}; tables := tables s |}
  end.

(** A migration is the statements it issues, in order. *)
Fixpoint run (stmts : list ddl) (s : schema) : result schema :=
  match stmts with
  | stmt :: rest => let* s' := execute stmt s in run rest s'
  | [] => Ok s
  end.

Definition tag_id_sequence : string := "tag_id_sequence".

Definition task_tag : table :=
  {| columns :=
       [ {| column_name := "tag_id"; column_type := "Integer";
            server_default := Some tag_id_sequence; nullable := false |};
         {| column_name := "name"; column_type := "String(length=100)";
            server_default := None; nullable := false |} ];
     primary_key := [ "tag_id"; "name" ] |}.

Definition upgrade_statements : list ddl :=
  [ CreateSequence tag_id_sequence; CreateTable "task_tag" task_tag ].

Definition downgrade_statements : list ddl :=
  [ DropTable "task_tag"; DropSequence tag_id_sequence ].

Definition upgrade (s : schema) : result schema := run upgrade_statements s.

Definition downgrade (s : schema) : result schema := run downgrade_statements s.

(** The statement that undoes a creation. *)
Definition undo (stmt : ddl) : option ddl :=
  match stmt with
  | CreateSequence name => Some (DropSequence name)
  | CreateTable name _ => Some (DropTable name)
  | DropTable _ | DropSequence _ => None
  end.

Definition empty_schema : schema := {| sequences := ∅; tables := ∅ |}.

End Migration.

(** ** Reading the results back

    The statements below look at the generated text the way a browser or a
    server would: the class attribute of a pager item, and the parameters
    of a query string as [urllib.parse.parse_qsl] recovers them when it is
    told to keep blank values, as a server does. *)

Module Read.

Import Urllib.

(** [s] without the prefix [p], when it starts with it. *)
Fixpoint strip_prefix (p s : string) : option string :=
  match p, s with
  | "", _ => Some s
  | String a p', String b s' => if Ascii.eqb a b then strip_prefix p' s' else None
  | String _ _, "" => None
  end.

(** The text up to the next double quote. *)
Fixpoint until_quote (s : string) : string :=
  match s with
  | String c s' => if Ascii.eqb c (ascii_of_nat 34) then "" else String c (until_quote s')
  | "" => ""
  end.

(** The classes of the [<li>] element a pager item opens with. *)
Definition li_class (item : string) : option (list string) :=
  (fun rest => Py.split " " (until_quote rest))
    <$> strip_prefix ("<li class=" +:+ Py.dq) item.

Definition has_class (cls item : string) : bool :=
  match li_class item with
  | Some l => existsb (String.eqb cls) l
  | None => false
  end.

Definition hex_value (c : ascii) : option nat :=
  let n := nat_of_ascii c in
  if in_range 48 57 c then Some (n - 48)%nat
  else if in_range 65 70 c then Some (n - 55)%nat
  else if in_range 97 102 c then Some (n - 87)%nat
  else None.

(** [unquote_plus]: [+] is a space and [%XX] the character of that code;
    a [%] that two hexadecimal digits do not follow stays as it is. *)
Fixpoint unquote_plus (s : string) : string :=
  match s with
  | "" => ""
  | String c s' =>
      if Ascii.eqb c "+" then String " " (unquote_plus s')
      else if Ascii.eqb c "%" then
        match s' with
        | String a (String b rest) =>
            match hex_value a, hex_value b with
            | Some x, Some y => String (ascii_of_nat (16 * x + y)) (unquote_plus rest)
            | _, _ => String c (unquote_plus s')
            end
        | _ => String c (unquote_plus s')
        end
      else String c (unquote_plus s')
  end.

(** [f.partition('=')] without the separator: the name and the value of a
    field. *)
Fixpoint partition_eq (f : string) : string * string :=
  match f with
  | "" => ("", "")
  | String c f' =>
      if Ascii.eqb c "=" then ("", f')
      else (String c (fst (partition_eq f')), snd (partition_eq f'))
  end.

Definition query_fields (qs : string) : list string :=
  if Py.truthy qs then Py.split "&" qs else [].

(** The decoded [(name, value)] pairs of a query string, in order, a
    blank value included: [parse_qsl(qs, keep_blank_values=True)]. *)
Definition parse_qsl (qs : string) : list (string * string) :=
  map (fun f => (unquote_plus (fst (partition_eq f)),
                 unquote_plus (snd (partition_eq f))))
      (query_fields qs).

(** The value of the first parameter called [d], if there is one. *)
Definition param (d : string) (qs : string) : option string :=
  snd <$> List.find (fun kv => String.eqb (fst kv) d) (parse_qsl qs).

(** [s] occurs in [t]: Python's [s in t] as a proposition. *)
Definition substring_of (s t : string) : Prop :=
  exists a b, t = a +:+ s +:+ b.

(** Whether a character occurs in a string. *)
Fixpoint occurs (c : ascii) (s : string) : bool :=
  match s with
  | String c' s' => Ascii.eqb c' c || occurs c s'
  | "" => false
  end.

End Read.

(** ** Instances used to exercise the statements *)

Module Examples.

Import Utils.

(** A data model with one relation, [task_tags], many-to-many to
    [TaskTag], and one plain column. *)
Definition task_instance_datamodel : SQLAInterface :=
  {| list_properties := {[ "task_tags"; "task_id" ]};
     list_columns := {[ "task_id" := OtherType "String" ]};
     is_relation := String.eqb "task_tags";
     get_related_model := fun _ => TaskTag;
     is_many_to_one := fun _ => false;
     is_one_to_one := fun _ => false;
     is_many_to_many := String.eqb "task_tags";
     is_one_to_many := fun _ => false;
     type_marker := fun marker col => String.eqb marker "is_string" |}.

(** Stand-ins for the two methods of [GeneralModelConverter]: each records
    in the form properties which path ran. *)
Definition simple_path (col label description : string) (v : unit)
    (form_props : list string) : result (list string) :=
  Ok (("simple:" +:+ col) :: form_props).

Definition relation_path (col label description : string) (v : unit)
    (filter_rel_fields : unit) (form_props : list string)
    : result (list string) :=
  Ok (("relation:" +:+ col) :: form_props).

(** The schema right after [upgrade] on an empty database. *)
Definition upgraded_schema : Migration.schema :=
  {| Migration.sequences := {[ Migration.tag_id_sequence ]} ∪ ∅;
     Migration.tables := <[ "task_tag" := Migration.task_tag ]> ∅ |}.

End Examples.

(** ** [airflow.www.utils]: column names, tag filters and small renderers *)

(** A Python [dict] with string keys, as its items in insertion order. *)
Module Dict.

Section Dict.

Context {V : Type}.

(** [d[k] = v]: an existing key keeps its place and takes the new value, a
    new key goes last. *)
Fixpoint setitem (k : string) (v : V) (d : list (string * V))
    : list (string * V) :=
  match d with
  | [] => [(k, v)]
  | (k', v') :: rest =>
      if String.eqb k' k then (k', v) :: rest else (k', v') :: setitem k v rest
  end.

(** [d.get(k)]. *)
Definition get (k : string) (d : list (string * V)) : option V :=
  snd <$> List.find (fun kv => String.eqb (fst kv) k) d.

Definition keys (d : list (string * V)) : list string := map fst d.

(** [{f(k): v for k, v in d.items()}]. *)
Definition rekey (f : string -> string) (d : list (string * V))
    : list (string * V) :=
  fold_left (fun acc kv => setitem (f (fst kv)) (snd kv) acc) d [].

(** Truth value of a dict: non-empty. *)
Definition truthy (d : list (string * V)) : bool :=
  match d with [] => false | _ => true end.

End Dict.

End Dict.

Module CustomSQLAInterface.

(** [k.lstrip('_')]. *)
Fixpoint lstrip_underscores (k : string) : string :=
  match k with
  | String c k' => if Ascii.eqb c "_" then lstrip_underscores k' else k
  | "" => ""
  end.

Section Clean.

(** Mapped properties and columns, whatever they hold. *)
Context {P C : Type}.

(** The two dicts [__init__] rewrites. *)
Record column_dicts : Type := {
  list_properties : list (string * P);
  list_columns : list (string * C)
}.

Definition clean_column_names (self : column_dicts) : column_dicts :=
  {| list_properties :=
       if Dict.truthy (list_properties self)
       then Dict.rekey lstrip_underscores (list_properties self)
       else list_properties self;
     list_columns :=
       if Dict.truthy (list_columns self)
       then Dict.rekey lstrip_underscores (list_columns self)
       else list_columns self |}.

End Clean.

End CustomSQLAInterface.

Module TagFilters.

(** A task instance with the names of its tags, and a query as the rows it
    selects, in order. *)
Record task_instance : Type := {
  task_id : string;
  task_tags : list string
}.

Section Apply.

(** [name ILIKE pattern], as the database evaluates it. *)
Variable ilike : string -> string -> bool.

(** [TaskInstance.task_tags.any(TaskTag.name.ilike('%' + value + '%'))]. *)
Definition any_tag_ilike (value : string) (ti : task_instance) : bool :=
  existsb (fun name => ilike name ("%" +:+ value +:+ "%")) (task_tags ti).

Definition TagContainsFilter_apply (query : list task_instance)
    (value : string) : list task_instance :=
  List.filter (any_tag_ilike value) query.

Definition TagNotContainsFilter_apply (query : list task_instance)
    (value : string) : list task_instance :=
  List.filter (fun ti => negb (any_tag_ilike value ti)) query.

End Apply.

End TagFilters.

Module UtcAwareFilterConverter.

Import Utils.

(** The filter classes a conversion table may name. *)
Inductive filter : Type :=
  | Filter (c : class)
  | TagContainsFilter
  | TagNotContainsFilter
  | FabFilter (name : string).

(** [conversion_table]: the two Airflow rows, then Flask-AppBuilder's. *)
Definition conversion_table (fab_table : list (string * list filter))
    : list (string * list filter) :=
  [ ("is_utcdatetime",
     [ Filter UtcAwareFilterEqual; Filter UtcAwareFilterGreater;
       Filter UtcAwareFilterSmaller; Filter UtcAwareFilterNotEqual ]);
    ("is_tasktag", [ TagContainsFilter; TagNotContainsFilter ]) ]
  ++ fab_table.

(** The filters the converter offers for a column: those of the first row
    whose marker holds. *)
Fixpoint convert (dm : SQLAInterface) (col_name : string)
    (table : list (string * list filter)) : option (list filter) :=
  match table with
  | (marker, filters) :: rest =>
      if call_marker dm marker col_name then Some filters
      else convert dm col_name rest
  | [] => None
  end.

End UtcAwareFilterConverter.

Module Html.

Import Markupsafe.

(** What [format] writes for a value that may be [None]. *)
Definition format_value (f : option string) : string :=
  match f with
  | Some s => s
  | None => "None"
  end.

(** [nobr_f(attr_name)(attr)], the attributes being texts. *)
Definition nobr_f (attr_name : string) (attr : gmap string string) : string :=
  let f := attr !! attr_name in
  "<nobr>" +:+ escape (format_value f) +:+ "</nobr>".

Section State.

(** [State.color]. *)
Variable State_color : option string -> string.

Definition state_token (state : option string) : string :=
  let color := State_color state in
  "<span " +:+ Markupsafe.attr "class" "label" +:+ " "
  +:+ Markupsafe.attr "style" ("background-color:" +:+ escape color +:+ ";")
  +:+ ">" +:+ escape (format_value state) +:+ "</span>".

Definition state_f (attr : gmap string string) : string :=
  let state := attr !! "state" in
  state_token state.

End State.

End Html.

(** ** More ways to read the results back *)

Module Read2.

Import Urllib.

(** How often a character occurs in a string. *)
Fixpoint count (c : ascii) (s : string) : nat :=
  match s with
  | String c' s' => (if Ascii.eqb c' c then 1 else 0) + count c s'
  | "" => 0
  end.

(** Every character of the string passes the test. *)
Fixpoint all_chars (p : ascii -> bool) (s : string) : bool :=
  match s with
  | String c s' => p c && all_chars p s'
  | "" => true
  end.

(** The characters of an encoded query string: the unreserved ones, the
    percent sign and the plus of the encoding, and the two separators. *)
Definition query_char (c : ascii) : bool :=
  always_safe c || Ascii.eqb c "%" || Ascii.eqb c "+"
  || Ascii.eqb c "=" || Ascii.eqb c "&".

Definition is_upper (c : ascii) : bool := in_range 65 90 c.

(** The string holds an upper-case ASCII letter. *)
Fixpoint has_upper (s : string) : bool :=
  match s with
  | String c s' => is_upper c || has_upper s'
  | "" => false
  end.


(** The text that follows the first occurrence of [marker]. *)
Fixpoint after (marker s : string) : option string :=
  match Read.strip_prefix marker s with
  | Some rest => Some rest
  | None =>
      match s with
      | String _ s' => after marker s'
      | "" => None
      end
  end.

Definition starts_with (p s : string) : bool :=
  match Read.strip_prefix p s with Some _ => true | None => false end.

(** What a browser makes of an attribute value: the five entities
    [escape] writes become their characters again.  [skip] counts the
    characters of an entity still to pass over. *)
Fixpoint unescape_from (skip : nat) (s : string) : string :=
  match s with
  | "" => ""
  | String c s' =>
      match skip with
      | S k => unescape_from k s'
      | O =>
          if Ascii.eqb c "&" then
            if starts_with "amp;" s' then String "&" (unescape_from 4 s')
            else if starts_with "gt;" s' then String ">" (unescape_from 3 s')
            else if starts_with "lt;" s' then String "<" (unescape_from 3 s')
            else if starts_with "#39;" s' then String "'" (unescape_from 4 s')
            else if starts_with "#34;" s'
            then String (ascii_of_nat 34) (unescape_from 4 s')
            else String c (unescape_from 0 s')
          else String c (unescape_from 0 s')
      end
  end.

Definition unescape (s : string) : string := unescape_from 0 s.

(** The link of a pager item, as a browser reads its [href]. *)
Definition href_of (item : string) : option string :=
  (fun rest => unescape (Read.until_quote rest))
    <$> after ("href=" +:+ Py.dq) item.

End Read2.

(** * Properties *)

Import Utils Read.

(** ** The definitions on small inputs *)

Example strip_lower_example :
  Py.lower (Py.strip "  User_Password ") = "user_password".
Proof. reflexivity. Qed.

Example split_example : Py.split "," "a,, b ," = [ "a"; ""; " b "; "" ].
Proof. reflexivity. Qed.

Example quote_plus_example :
  Urllib.quote_plus "a b&c=/~" = "a+b%26c%3D%2F~".
Proof. reflexivity. Qed.

Example escape_example :
  Markupsafe.escape "?page=0&search=<a>" = "?page=0&amp;search=&lt;a&gt;".
Proof. reflexivity. Qed.

Example get_params_none_and_zero :
  get_params [ ("a", Some (Urllib.VInt 0)); ("b", None);
               ("c", Some (Urllib.VStr "true")) ]
  = "a=0&c=true".
Proof. reflexivity. Qed.

Example get_params_all :
  get_params [ ("status", Some (Urllib.VStr "active"));
               ("page", Some (Urllib.VInt 3));
               ("search", Some (Urllib.VStr "bash_")) ]
  = "status=active&page=3&search=bash_".
Proof. reflexivity. Qed.

Example should_hide_examples :
  should_hide_value_for_key default_conf (Some "google_api_key") = true
  /\ should_hide_value_for_key default_conf (Some "GOOGLE_API_KEY") = true
  /\ should_hide_value_for_key default_conf (Some "key") = false
  /\ should_hide_value_for_key
       {| sensitive_variable_fields := "token, key";
          hide_sensitive_variable_fields := true |} (Some "key") = true
  /\ should_hide_value_for_key
       {| sensitive_variable_fields := "";
          hide_sensitive_variable_fields := false |} (Some "password") = false.
Proof. repeat split; reflexivity. Qed.

Example mro_example :
  mro UtcAwareFilterEqual
  = Some [ UtcAwareFilterEqual; UtcAwareFilterMixin; FilterEqual;
           BaseFilter; object ].
Proof. reflexivity. Qed.

Example first_page_links :
  first_link (Some "a b&c") None = "?page=0&search=a+b%26c"
  /\ previous_link 0 (Some "a b&c") None = "javascript:void(0)"
  /\ next_link 0 3 None (Some "active") = "?page=1&status=active"
  /\ last_link 3 None None = "?page=2".
Proof. repeat split; reflexivity. Qed.

(** ** Ranges and the window *)

Lemma round53_small (x : Z) : Z.abs x < 2 ^ 53 -> Py.round53 x = x.
Proof.
  intros H. unfold Py.round53.
  assert (Hlog : Z.log2 (Z.abs x) - 52 <= 0).
  { destruct (Z.eq_dec (Z.abs x) 0) as [->|Hne]; [cbn; lia|].
    assert (Z.log2 (Z.abs x) < 53) by (apply Z.log2_lt_pow2; lia). lia. }
  cbv zeta. destruct (Z.leb_spec (Z.log2 (Z.abs x) - 52) 0); [reflexivity | lia].
Qed.

(** Rounding a positive integer moves it by less than itself. *)
Lemma round53_pos (x : Z) : 0 < x -> 0 < Py.round53 x < 2 * x.
Proof.
  intros Hx. unfold Py.round53. cbv zeta.
  rewrite (Z.abs_eq x) by lia. rewrite (Z.sgn_pos x) by lia.
  destruct (Z.leb_spec (Z.log2 x - 52) 0) as [Hs|Hs]; [lia|].
  set (ulp := 2 ^ (Z.log2 x - 52)).
  assert (Hulp : 0 < ulp) by (apply Z.pow_pos_nonneg; lia).
  assert (Hbig : 2 ^ 52 * ulp <= x).
  { unfold ulp. rewrite <- Z.pow_add_r by lia.
    replace (52 + (Z.log2 x - 52)) with (Z.log2 x) by lia.
    apply Z.log2_spec. exact Hx. }
  pose proof (Z.div_mod x ulp ltac:(lia)) as Hdiv.
  pose proof (Z.mod_pos_bound x ulp Hulp) as Hmod.
  set (q := x / ulp) in *. set (r := x mod ulp) in *.
  assert (Hq : 2 ^ 52 <= q).
  { apply Z.div_le_lower_bound; [exact Hulp|]. lia. }
  change (2 ^ 52) with 4503599627370496 in *.
  destruct ((ulp <? 2 * r) || ((2 * r =? ulp) && Z.odd q)); nia.
Qed.

Lemma mid_exact (window : Z) :
  0 <= window <= 2 ^ 53 + 2 -> mid window = window / 2.
Proof.
  intros H. unfold mid, Py.int_truediv2.
  assert (Hc : window < 2 ^ 53 \/ window = 2 ^ 53 \/ window = 2 ^ 53 + 1
               \/ window = 2 ^ 53 + 2) by lia.
  destruct Hc as [Hc|[Hc|[Hc|Hc]]]; try (subst window; reflexivity).
  rewrite round53_small by (rewrite Z.abs_eq; lia).
  apply Z.quot_div_nonneg; lia.
Qed.

Lemma mid_lt_window (window : Z) : 1 <= window -> 0 <= mid window < window.
Proof.
  intros H. unfold mid, Py.int_truediv2.
  pose proof (round53_pos window ltac:(lia)) as Hr.
  rewrite Z.quot_div_nonneg by lia. split.
  - apply Z.div_pos; lia.
  - apply Z.div_lt_upper_bound; lia.
Qed.

Lemma pages_first_branch (current_page num_of_pages window : Z) :
  current_page <= mid window \/ num_of_pages < window ->
  pages current_page num_of_pages window = seqZ 0 (Z.min num_of_pages window).
Proof.
  intros H. unfold pages, Py.range.
  destruct (Z.leb_spec current_page (mid window));
    destruct (Z.ltb_spec num_of_pages window); simpl;
    f_equal; lia.
Qed.

Lemma pages_later_branches (current_page num_of_pages window : Z) :
  mid window < current_page -> window <= num_of_pages ->
  pages current_page num_of_pages window =
    if (mid window <? current_page)
       && (current_page <? last_page num_of_pages - mid window)
    then seqZ (current_page - mid window) (2 * mid window + 1)
    else seqZ (num_of_pages - window) window.
Proof.
  intros Hmid Hwin. unfold pages, Py.range.
  destruct (Z.leb_spec current_page (mid window)); [lia|].
  destruct (Z.ltb_spec num_of_pages window); [lia|]. simpl.
  destruct (_ && _); f_equal; unfold last_page; lia.
Qed.

(** The first window the double rounds: [2^53 + 3] pages among [2^54],
    seen from page [2^53].  [mid] is [window div 2 + 1] there, and the
    centred view has [window + 2] pages. *)
Lemma pages_large_window :
  pages (2 ^ 53) (2 ^ 54) (2 ^ 53 + 3)
  = seqZ (2 ^ 53 - ((2 ^ 53 + 3) / 2 + 1)) (2 ^ 53 + 3 + 2).
Proof.
  rewrite pages_later_branches by (vm_compute; congruence).
  replace (mid (2 ^ 53 + 3)) with ((2 ^ 53 + 3) / 2 + 1) by reflexivity.
  replace (last_page (2 ^ 54)) with (2 ^ 54 - 1) by reflexivity.
  destruct (Z.ltb_spec ((2 ^ 53 + 3) / 2 + 1) (2 ^ 53)) as [_|H];
    [|exfalso; revert H; vm_compute; congruence].
  destruct (Z.ltb_spec (2 ^ 53) (2 ^ 54 - 1 - ((2 ^ 53 + 3) / 2 + 1)))
    as [_|H]; [|exfalso; revert H; vm_compute; congruence].
  cbn [andb]. f_equal; reflexivity.
Qed.




(** C2 as stated fails: with three pages and a window of seven the
    condition holds and the pager shows pages 0 to 2, not pages 0 to 6. *)
Lemma pages_start_not_window :
  (0 <= 7 / 2 \/ 3 < 7)
  /\ pages 0 3 7 = [0; 1; 2]
  /\ pages 0 3 7 <> seqZ 0 7.
Proof. split; [right; lia|]. split; [reflexivity | discriminate]. Qed.

(** The hypothesis of C2 cannot be read with [window div 2] either: with
    a window of [2^54 + 2] pages [mid] is [2^53], so page [2^53 + 1] is
    within [window div 2] of the start and yet past [mid]. *)
Lemma mid_large_window :
  mid (2 ^ 54 + 2) = 2 ^ 53 /\ (2 ^ 54 + 2) / 2 = 2 ^ 53 + 1.
Proof. split; reflexivity. Qed.

(** C2, amended: on a call that returns, a current page within [mid] of
    the start, or fewer pages than the window, gives the pages from [0] up
    to, and without, the smaller of [num_of_pages] and [window]; that is
    pages [0] to [window - 1] when there are at least [window] pages.
    Here [mid] is [int(window / 2)]; it is [window / 2] for every window
    from [0] to [2^53 + 2]. *)
Theorem pages_start (current_page num_of_pages window : Z) :
  Py.truediv2_overflows window = false ->
  current_page <= mid window \/ num_of_pages < window ->
  pages current_page num_of_pages window = seqZ 0 (Z.min num_of_pages window)
  /\ (forall k, k ∈ pages current_page num_of_pages window
        <-> 0 <= k < num_of_pages /\ k < window)
  /\ (window <= num_of_pages ->
      pages current_page num_of_pages window = seqZ 0 window)
  /\ (0 <= window <= 2 ^ 53 + 2 -> mid window = window / 2).
Proof.
  intros _ H. pose proof (pages_first_branch _ _ _ H) as E.
  split; [exact E|]. split; [|split].
  - intros k. rewrite E, elem_of_seqZ. lia.
  - intros Hwin. rewrite E. f_equal. lia.
  - apply mid_exact.
Qed.

Lemma pages_start_witness :
  pages 0 3 7 = [0; 1; 2] /\ pages 2 20 7 = [0; 1; 2; 3; 4; 5; 6].
Proof.
  split.
  - destruct (pages_start 0 3 7) as [E _]; [reflexivity | right; lia | exact E].
  - destruct (pages_start 2 20 7) as [E _];
      [reflexivity | left; vm_compute; discriminate | exact E].
Defined.

(** C3: with twenty pages and a window of seven, page 0 shows pages 0 to
    6, page 10 shows pages 7 to 13 and page 19 shows pages 13 to 19. *)
Theorem pages_twenty_seven :
  pages 0 20 7 = [0; 1; 2; 3; 4; 5; 6]
  /\ pages 10 20 7 = [7; 8; 9; 10; 11; 12; 13]
  /\ pages 19 20 7 = [13; 14; 15; 16; 17; 18; 19].
Proof. repeat split; reflexivity. Qed.

(** ** The controls of the pager *)




Lemma previous_item_class (current_page : Z) (search status : option string) :
  has_class "disabled" (previous_item current_page search status)
  = (current_page <=? 0).
Proof.
  unfold previous_item, is_disabled_start.
  destruct (current_page <=? 0); reflexivity.
Qed.

Lemma next_item_class (current_page num_of_pages : Z)
    (search status : option string) :
  has_class "disabled" (next_item current_page num_of_pages search status)
  = (num_of_pages - 1 <=? current_page).
Proof.
  unfold next_item, is_disabled_end.
  destruct (num_of_pages - 1 <=? current_page); reflexivity.
Qed.



(** ** Sensitive variable fields *)

Lemma prefix_append (s t : string) :
  String.prefix s t = true <-> exists b, t = s +:+ b.
Proof.
  revert t. induction s as [|c s IH]; intros t; simpl.
  - split; [intros _; exists t; reflexivity | intros _; now destruct t].
  - destruct t as [|d t].
    + split; [discriminate | intros [b Hb]; discriminate Hb].
    + simpl. destruct (ascii_dec c d) as [E|Hne].
      * subst d. rewrite IH. split; intros [b Hb]; exists b.
        -- simpl. now rewrite Hb.
        -- simpl in Hb. now inversion Hb.
      * split; [discriminate|]. intros [b Hb]. simpl in Hb.
        inversion Hb. congruence.
Qed.

Lemma contains_substring_of (s t : string) :
  Py.contains s t = true <-> substring_of s t.
Proof.
  unfold substring_of. induction t as [|c t IH]; cbn [Py.contains].
  - rewrite orb_false_r, prefix_append. split.
    + intros [b Hb]. exists "", b. exact Hb.
    + intros (a & b & Hab). destruct a; [|discriminate Hab]. now exists b.
  - rewrite orb_true_iff, IH, prefix_append. split.
    + intros [[b Hb]|(a & b & Hab)].
      * exists "", b. exact Hb.
      * exists (String c a), b. simpl. now rewrite Hab.
    + intros (a & b & Hab). destruct a as [|d a]; simpl in Hab.
      * left. now exists b.
      * right. exists a, b. now inversion Hab.
Qed.

Lemma truthy_nonempty (s : string) : Py.truthy s = true <-> s <> "".
Proof. destruct s; simpl; split; congruence. Qed.



Lemma default_fields_nonempty (s : string) :
  s ∈ DEFAULT_SENSITIVE_VARIABLE_FIELDS -> s <> "".
Proof.
  unfold DEFAULT_SENSITIVE_VARIABLE_FIELDS. rewrite !elem_of_cons.
  intros H E. subst s.
  repeat (destruct H as [H|H]; [discriminate H|]).
  now apply elem_of_nil in H.
Qed.

(** The functions of [Utils] are those of [Sensitive] with the ASCII
    [strip] and [lower]. *)
Lemma get_sensitive_variables_fields_ascii (c : conf) :
  get_sensitive_variables_fields c
  = Sensitive.get_sensitive_variables_fields Py.strip c.
Proof. reflexivity. Qed.

Lemma should_hide_value_for_key_ascii (c : conf) (key : option string) :
  should_hide_value_for_key c key
  = Sensitive.should_hide_value_for_key Py.strip Py.lower c key.
Proof. reflexivity. Qed.

(** The same two facts with the interpreter's [strip] and [lower]. *)
Lemma elem_of_sensitive_fields_str (str_strip : string -> string)
    (c : conf) (s : string) :
  s ∈ Sensitive.get_sensitive_variables_fields str_strip c
  <-> s ∈ DEFAULT_SENSITIVE_VARIABLE_FIELDS
      \/ (sensitive_variable_fields c <> ""
          /\ exists piece, piece ∈ Py.split "," (sensitive_variable_fields c)
                /\ s = str_strip piece).
Proof.
  unfold Sensitive.get_sensitive_variables_fields.
  destruct (Py.truthy (sensitive_variable_fields c)) eqn:E.
  - apply truthy_nonempty in E.
    rewrite elem_of_union, !elem_of_list_to_set, list_elem_of_fmap.
    split; (intros [H|H]; [now left | right]).
    + destruct H as (piece & -> & Hin). eauto.
    + destruct H as (_ & piece & Hin & ->). eauto.
  - rewrite elem_of_list_to_set. split; [tauto|].
    intros [H|[H _]]; [exact H|]. apply truthy_nonempty in H. congruence.
Qed.

Lemma should_hide_str_true (str_strip str_lower : string -> string)
    (c : conf) (key : string) :
  Sensitive.should_hide_value_for_key str_strip str_lower c (Some key) = true
  <-> key <> "" /\ hide_sensitive_variable_fields c = true
      /\ exists s, s ∈ Sensitive.get_sensitive_variables_fields str_strip c
           /\ substring_of s (str_lower (str_strip key)).
Proof.
  unfold Sensitive.should_hide_value_for_key.
  destruct (Py.truthy key) eqn:E.
  - apply truthy_nonempty in E. rewrite andb_true_iff, existsb_exists.
    split.
    + intros [Hc (s & Hin & Hs)]. repeat split; auto.
      exists s. rewrite <- contains_substring_of.
      split; [|exact Hs]. now apply elem_of_elements, list_elem_of_In.
    + intros (_ & Hc & s & Hin & Hs). split; [exact Hc|].
      exists s. rewrite contains_substring_of.
      split; [|exact Hs]. now apply list_elem_of_In, elem_of_elements.
  - split; [discriminate|]. intros [H _]. apply truthy_nonempty in H. congruence.
Qed.

Lemma substring_of_empty (s : string) : substring_of s "" -> s = "".
Proof.
  intros (a & b & Hab). destruct a; [|discriminate Hab].
  destruct s; [reflexivity | discriminate Hab].
Qed.

(** C5 as stated fails beyond the default configuration: with the toggle
    on and the list [secret,] the merged set holds the empty field, which
    occurs in every key, the empty one too; and the empty key is not
    hidden.  The strings here are ASCII, where [Py.strip] and [Py.lower]
    are the interpreter's. *)
Lemma empty_key_not_hidden :
  Sensitive.should_hide_value_for_key Py.strip Py.lower
    {| sensitive_variable_fields := "secret,";
       hide_sensitive_variable_fields := true |} (Some "") = false
  /\ "" ∈ Sensitive.get_sensitive_variables_fields Py.strip
            {| sensitive_variable_fields := "secret,";
               hide_sensitive_variable_fields := true |}
  /\ substring_of "" (Py.lower (Py.strip "")).
Proof.
  split; [reflexivity|]. split.
  - apply elem_of_sensitive_fields_str. right. split; [discriminate|].
    exists "". split; [|reflexivity].
    cbn. apply list_elem_of_further, list_elem_of_here.
  - exists "", "". reflexivity.
Qed.

(** C5, amended: for [strip] and [lower] as the interpreter has them.
    Under the default configuration [user_password] is hidden and
    [username] is not, and a key is hidden exactly when one of the seven
    defaults occurs in the stripped, lower-cased key.  For every
    configuration, the merged set holds the defaults and, when the
    configured list is not empty, its stripped pieces; with the toggle on
    a key that is not empty is hidden exactly when some entry of the
    merged set occurs in the stripped, lower-cased key; with the toggle
    off no key is hidden; the empty key and [None] never are. *)
Theorem should_hide_value_for_key_merged (str_strip str_lower : string -> string) :
  Sensitive.agrees_on_ascii str_strip Py.strip ->
  Sensitive.agrees_on_ascii str_lower Py.lower ->
  (Sensitive.should_hide_value_for_key str_strip str_lower
     default_conf (Some "user_password") = true
   /\ Sensitive.should_hide_value_for_key str_strip str_lower
        default_conf (Some "username") = false
   /\ forall key : string,
        Sensitive.should_hide_value_for_key str_strip str_lower
          default_conf (Some key) = true
        <-> exists s, s ∈ DEFAULT_SENSITIVE_VARIABLE_FIELDS
              /\ substring_of s (str_lower (str_strip key)))
  /\ (forall (c : conf) (s : string),
       s ∈ Sensitive.get_sensitive_variables_fields str_strip c
       <-> s ∈ DEFAULT_SENSITIVE_VARIABLE_FIELDS
           \/ (sensitive_variable_fields c <> ""
               /\ exists piece,
                    piece ∈ Py.split "," (sensitive_variable_fields c)
                    /\ s = str_strip piece))
  /\ (forall (c : conf) (key : string),
       hide_sensitive_variable_fields c = true -> key <> "" ->
       Sensitive.should_hide_value_for_key str_strip str_lower c (Some key) = true
       <-> exists s, s ∈ Sensitive.get_sensitive_variables_fields str_strip c
             /\ substring_of s (str_lower (str_strip key)))
  /\ (forall (c : conf) (key : option string),
       hide_sensitive_variable_fields c = false ->
       Sensitive.should_hide_value_for_key str_strip str_lower c key = false)
  /\ (forall c : conf,
       Sensitive.should_hide_value_for_key str_strip str_lower c (Some "") = false
       /\ Sensitive.should_hide_value_for_key str_strip str_lower c None = false).
Proof.
  intros Hs Hl.
  assert (Hdefault : forall key,
    Sensitive.should_hide_value_for_key str_strip str_lower
      default_conf (Some key) = true
    <-> exists s, s ∈ DEFAULT_SENSITIVE_VARIABLE_FIELDS
          /\ substring_of s (str_lower (str_strip key))).
  { intros key. rewrite should_hide_str_true. split.
    - intros (_ & _ & s & Hin & Hsub). exists s. split; [|exact Hsub].
      apply elem_of_sensitive_fields_str in Hin.
      destruct Hin as [Hin|[Hne _]]; [exact Hin | now contradiction Hne].
    - intros (s & Hin & Hsub). split; [|split; [reflexivity|]].
      + intros ->. rewrite (Hs "" eq_refl) in Hsub.
        change (Py.strip "") with "" in Hsub. rewrite (Hl "" eq_refl) in Hsub.
        apply substring_of_empty in Hsub. subst s.
        now apply default_fields_nonempty in Hin.
      + exists s. split; [|exact Hsub].
        apply elem_of_sensitive_fields_str. now left. }
  split; [split; [|split; [|exact Hdefault]]|].
  - apply Hdefault. exists "password". split.
    + unfold DEFAULT_SENSITIVE_VARIABLE_FIELDS. apply list_elem_of_here.
    + rewrite (Hs "user_password" eq_refl).
      change (Py.strip "user_password") with "user_password".
      rewrite (Hl "user_password" eq_refl). exists "user_", "". reflexivity.
  - apply not_true_is_false. intros H. apply Hdefault in H.
    destruct H as (s & Hin & Hsub). rewrite (Hs "username" eq_refl) in Hsub.
    change (Py.strip "username") with "username" in Hsub.
    rewrite (Hl "username" eq_refl) in Hsub.
    apply contains_substring_of in Hsub.
    unfold DEFAULT_SENSITIVE_VARIABLE_FIELDS in Hin. rewrite !elem_of_cons in Hin.
    repeat (destruct Hin as [->|Hin]; [discriminate Hsub|]).
    now apply elem_of_nil in Hin.
  - split; [exact (elem_of_sensitive_fields_str str_strip)|].
    split; [|split].
    + intros c key Hc Hkey. rewrite should_hide_str_true. tauto.
    + intros c [key|] Hc; [|reflexivity].
      unfold Sensitive.should_hide_value_for_key. rewrite Hc.
      now destruct (Py.truthy key).
    + intros c. split; reflexivity.
Qed.

Lemma should_hide_value_for_key_merged_witness :
  Sensitive.should_hide_value_for_key Py.strip Py.lower
    {| sensitive_variable_fields := "token, owner";
       hide_sensitive_variable_fields := true |} (Some "Dag_Owner ") = true
  <-> exists s,
        s ∈ Sensitive.get_sensitive_variables_fields Py.strip
              {| sensitive_variable_fields := "token, owner";
                 hide_sensitive_variable_fields := true |}
        /\ substring_of s (Py.lower (Py.strip "Dag_Owner ")).
Proof.
  destruct (should_hide_value_for_key_merged Py.strip Py.lower)
    as (_ & _ & H & _).
  - intros s _. reflexivity.
  - intros s _. reflexivity.
  - apply H; [reflexivity | discriminate].
Defined.

(** C9: whatever the configuration, an absent or empty key is not
    hidden. *)
Theorem should_hide_value_for_key_empty (c : conf) :
  should_hide_value_for_key c None = false
  /\ should_hide_value_for_key c (Some "") = false.
Proof. split; reflexivity. Qed.

(** ** UTC-aware filters *)

Lemma mro_utc_aware_filter (k : comparison) :
  mro (utc_aware_filter k)
  = Some [ utc_aware_filter k; UtcAwareFilterMixin; fab_filter k;
           BaseFilter; object ].
Proof. destruct k; reflexivity. Qed.

Lemma mro_fab_filter (k : comparison) :
  mro (fab_filter k) = Some [ fab_filter k; BaseFilter; object ].
Proof. destruct k; reflexivity. Qed.

(** C8: for each of the four comparisons, [apply] on the UTC-aware filter
    parses the value as UTC and hands the parsed value to the [apply] of
    the wrapped filter, which is Flask-AppBuilder's own; a value that does
    not parse raises before the wrapped filter runs. *)
Theorem utc_aware_filter_apply (query pyvalue tzinfo : Type)
    (timezone_parse : pyvalue -> tzinfo -> result pyvalue)
    (timezone_utc : tzinfo)
    (fab_apply : class -> query -> pyvalue -> result query)
    (k : comparison) (q : query) (value : pyvalue) :
  apply timezone_parse timezone_utc fab_apply (utc_aware_filter k) q value
  = (let* parsed := timezone_parse value timezone_utc in
     apply timezone_parse timezone_utc fab_apply (fab_filter k) q parsed)
  /\ (forall v, apply timezone_parse timezone_utc fab_apply (fab_filter k) q v
                = fab_apply (fab_filter k) q v).
Proof.
  unfold apply. rewrite mro_utc_aware_filter, mro_fab_filter.
  split; [|intros v]; destruct k; reflexivity.
Qed.

(** ** The task tag converter *)

Lemma is_tasktag_cardinality (dm : SQLAInterface)
    (m2o o2o m2m o2m : string -> bool) (col_name : string) :
  is_tasktag (with_cardinality dm m2o o2o m2m o2m) col_name
  = is_tasktag dm col_name.
Proof. reflexivity. Qed.

(** C7: on a column that [is_tasktag] accepts, [_convert_col] is
    [_convert_simple] on the same arguments, whatever the parent's
    [_convert_col] would do and whatever the cardinality of the relation;
    on any other column it is the parent's [_convert_col] on the same
    arguments. *)
Theorem convert_col_tasktag (validators rel_filters props : Type)
    (datamodel : SQLAInterface)
    (convert_simple : string -> string -> string -> validators -> props
                      -> result props)
    (super_convert_col : string -> string -> string -> validators
                         -> rel_filters -> props -> result props)
    (col_name label description : string) (lst_validators : validators)
    (filter_rel_fields : rel_filters) (form_props : props) :
  (is_tasktag datamodel col_name = true ->
     (forall other_convert_col m2o o2o m2m o2m,
        TaskTagModelConverter._convert_col
          (with_cardinality datamodel m2o o2o m2m o2m)
          convert_simple other_convert_col
          col_name label description lst_validators filter_rel_fields form_props
        = convert_simple col_name label description lst_validators form_props)
     /\ TaskTagModelConverter._convert_col datamodel
          convert_simple super_convert_col
          col_name label description lst_validators filter_rel_fields form_props
        = convert_simple col_name label description lst_validators form_props)
  /\ (is_tasktag datamodel col_name = false ->
      TaskTagModelConverter._convert_col datamodel
        convert_simple super_convert_col
        col_name label description lst_validators filter_rel_fields form_props
      = super_convert_col col_name label description lst_validators
          filter_rel_fields form_props).
Proof.
  unfold TaskTagModelConverter._convert_col. split; intros H.
  - split; [intros other m2o o2o m2m o2m; rewrite is_tasktag_cardinality|];
      rewrite H; reflexivity.
  - rewrite H. reflexivity.
Qed.

Lemma convert_col_tasktag_witness :
  TaskTagModelConverter._convert_col Examples.task_instance_datamodel
    Examples.simple_path Examples.relation_path
    "task_tags" "Tags" "" tt tt []
  = Ok ["simple:task_tags"]
  /\ TaskTagModelConverter._convert_col Examples.task_instance_datamodel
       Examples.simple_path Examples.relation_path
       "task_id" "Task" "" tt tt []
     = Ok ["relation:task_id"].
Proof.
  split.
  - destruct (convert_col_tasktag unit unit (list string)
                Examples.task_instance_datamodel
                Examples.simple_path Examples.relation_path
                "task_tags" "Tags" "" tt tt []) as [H _].
    destruct H as [_ E]; [vm_compute; reflexivity | exact E].
  - destruct (convert_col_tasktag unit unit (list string)
                Examples.task_instance_datamodel
                Examples.simple_path Examples.relation_path
                "task_id" "Task" "" tt tt []) as [_ H].
    exact (H eq_refl).
Defined.

(** With the table as the module leaves it, a task tag column that is not
    a UTC date column becomes a [StringField] with the text widget. *)
Lemma convert_tasktag_field (dm : SQLAInterface) (col_name : string)
    (fab_table : list (string * form_field * widget)) :
  is_tasktag dm col_name = true ->
  is_utcdatetime dm col_name = false ->
  convert dm col_name (conversion_table fab_table)
  = Some (StringField, BS3TextFieldWidget).
Proof.
  intros Ht Hu. unfold conversion_table. simpl.
  unfold call_marker. simpl. rewrite Hu, Ht. reflexivity.
Qed.

(** ** The migration *)

Import Migration.

Lemma uses_sequence_exists (seq : string) (t : table) (s : schema) :
  uses_sequence seq t = true -> defaults_exist t s = true ->
  seq ∈ sequences s.
Proof.
  unfold uses_sequence, defaults_exist.
  induction (columns t) as [|c cs IH]; simpl; [discriminate|].
  rewrite orb_true_iff, andb_true_iff. intros [Hc|Hcs] [Hd Hds]; [|auto].
  apply bool_decide_eq_true in Hc. rewrite Hc in Hd.
  now apply bool_decide_eq_true in Hd.
Qed.

Lemma sequence_not_in_use (seq : string) (s : schema) :
  schema_wf s -> seq ∉ sequences s -> sequence_in_use seq s = false.
Proof.
  intros Hwf Hseq. unfold sequence_in_use. apply bool_decide_eq_false.
  intros (name & t & Hlook & Huse). apply Hseq.
  eapply uses_sequence_exists; [exact Huse|]. eapply Hwf, Hlook.
Qed.

Lemma defaults_exist_mono (t : table) (s s' : schema) :
  sequences s ⊆ sequences s' ->
  defaults_exist t s = true -> defaults_exist t s' = true.
Proof.
  intros Hsub. unfold defaults_exist. rewrite !forallb_forall.
  intros H c Hc. specialize (H c Hc). destruct (server_default c); [|done].
  apply bool_decide_eq_true. apply bool_decide_eq_true in H. set_solver.
Qed.

(** Every statement keeps the schema well formed. *)
Lemma execute_wf (stmt : ddl) (s s' : schema) :
  schema_wf s -> execute stmt s = Ok s' -> schema_wf s'.
Proof.
  intros Hwf. destruct stmt as [name|name t|name|name]; simpl.
  - case_bool_decide; [discriminate|]. intros [= <-] n t Hn. simpl in *.
    eapply defaults_exist_mono; [|eapply Hwf, Hn]. simpl. set_solver.
  - case_bool_decide; [discriminate|].
    destruct (defaults_exist t s) eqn:Hd; [|discriminate]. simpl.
    intros [= <-] n t' Hn. simpl in Hn.
    destruct (decide (name = n)) as [->|Hne].
    + rewrite lookup_insert_eq in Hn. injection Hn as <-. exact Hd.
    + rewrite lookup_insert_ne in Hn by done. apply (Hwf n t' Hn).
  - case_bool_decide; [|discriminate]. intros [= <-] n t Hn. simpl in Hn.
    destruct (decide (name = n)) as [->|Hne].
    + rewrite lookup_delete_eq in Hn. discriminate.
    + rewrite lookup_delete_ne in Hn by done. apply (Hwf n t Hn).
  - case_bool_decide; [|discriminate]. simpl.
    destruct (sequence_in_use name s) eqn:Huse; [discriminate|].
    intros [= <-] n t Hn. simpl in Hn.
    pose proof (Hwf n t Hn) as Hd. unfold defaults_exist in *.
    rewrite forallb_forall in *. intros c Hc. specialize (Hd c Hc).
    destruct (server_default c) as [seq|] eqn:Hsd; [|done].
    apply bool_decide_eq_true in Hd. apply bool_decide_eq_true. simpl.
    apply elem_of_difference. split; [exact Hd|].
    rewrite elem_of_singleton. intros ->.
    apply bool_decide_eq_false in Huse. apply Huse.
    exists n, t. split; [exact Hn|]. unfold uses_sequence.
    apply existsb_exists. exists c. split; [exact Hc|].
    now apply bool_decide_eq_true.
Qed.

(** In this model of the schema, [upgrade] succeeds exactly where neither
    object exists. *)
Lemma upgrade_ok (s s' : schema) :
  upgrade s = Ok s'
  <-> (tag_id_sequence ∉ sequences s) /\ tables s !! "task_tag" = None
      /\ s' = {| sequences := {[ tag_id_sequence ]} ∪ sequences s;
                 tables := <[ "task_tag" := task_tag ]> (tables s) |}.
Proof.
  unfold upgrade, upgrade_statements, run, execute, bind.
  case_bool_decide as Hseq.
  { split; [discriminate|]. intros [H _]. contradiction. }
  cbn [sequences tables]. case_bool_decide as Htab.
  { split; [discriminate|]. intros (_ & H & _). rewrite H in Htab.
    now destruct Htab. }
  assert (Hd : defaults_exist task_tag
                 {| sequences := {[ tag_id_sequence ]} ∪ sequences s;
                    tables := tables s |} = true).
  { unfold defaults_exist. simpl. rewrite andb_true_r.
    apply bool_decide_eq_true. set_solver. }
  rewrite Hd. simpl. split.
  - intros [= <-]. repeat split; [exact Hseq|].
    destruct (tables s !! "task_tag") eqn:E; [|reflexivity].
    exfalso. apply Htab. eauto.
  - intros (_ & _ & ->). reflexivity.
Qed.

(** C6: on a well-formed schema where [upgrade] succeeds, [upgrade] has
    created the sequence and the table, [downgrade] then succeeds and gives
    back the schema [upgrade] started from, in which neither the table nor
    the sequence exists; [downgrade] issues the drops of what [upgrade]
    created, in the reverse order: the table, then the sequence. *)
Theorem upgrade_downgrade (s s' : schema) :
  schema_wf s -> upgrade s = Ok s' ->
  (tag_id_sequence ∈ sequences s' /\ tables s' !! "task_tag" = Some task_tag)
  /\ downgrade s' = Ok s
  /\ ((tag_id_sequence ∉ sequences s) /\ tables s !! "task_tag" = None)
  /\ upgrade_statements
     = [ CreateSequence tag_id_sequence; CreateTable "task_tag" task_tag ]
  /\ downgrade_statements = [ DropTable "task_tag"; DropSequence tag_id_sequence ]
  /\ map undo (rev upgrade_statements) = map Some downgrade_statements.
Proof.
  intros Hwf Hup. apply upgrade_ok in Hup. destruct Hup as (Hseq & Htab & ->).
  split; [|split; [|split; [auto | repeat split]]].
  - simpl. split; [set_solver | apply lookup_insert_eq].
  - unfold downgrade, downgrade_statements, run, execute, bind.
    cbn [sequences tables]. rewrite lookup_insert_eq.
    rewrite bool_decide_eq_true_2 by eauto. cbn [sequences tables].
    rewrite bool_decide_eq_true_2 by set_solver. cbn [negb].
    rewrite delete_insert_id by exact Htab.
    change (sequence_in_use tag_id_sequence _)
      with (sequence_in_use tag_id_sequence s).
    rewrite (sequence_not_in_use _ _ Hwf Hseq). cbn [sequences tables]. destruct s as [seqs tabs].
    f_equal. f_equal. simpl in *. apply set_eq. intros x.
    rewrite elem_of_difference, elem_of_union, elem_of_singleton.
    split; [tauto|]. intros Hx. split; [tauto|]. intros ->. contradiction.
Qed.

Lemma upgrade_downgrade_witness :
  downgrade Examples.upgraded_schema = Ok empty_schema.
Proof.
  apply (upgrade_downgrade empty_schema Examples.upgraded_schema).
  - intros name t H. simpl in H. rewrite lookup_empty in H. discriminate H.
  - reflexivity.
Defined.

(** Dropping in the order of creation fails: the default of [tag_id]
    still depends on the sequence. *)
Lemma drop_sequence_first_fails (s s' : schema) :
  upgrade s = Ok s' ->
  run [ DropSequence tag_id_sequence; DropTable "task_tag" ] s'
  = Raise (DatabaseError "other objects depend on the sequence").
Proof.
  intros Hup. apply upgrade_ok in Hup. destruct Hup as (Hseq & Htab & ->).
  unfold run, execute, bind. cbn [sequences tables].
  rewrite bool_decide_eq_true_2 by set_solver. cbn [negb].
  assert (Huse : sequence_in_use tag_id_sequence
                   {| sequences := {[ tag_id_sequence ]} ∪ sequences s;
                      tables := <[ "task_tag" := task_tag ]> (tables s) |}
                 = true).
  { apply bool_decide_eq_true. exists "task_tag", task_tag.
    split; [apply lookup_insert_eq | reflexivity]. }
  rewrite Huse. reflexivity.
Qed.

(** ** Query strings *)

Import Urllib.

Lemma occurs_append (c : ascii) (a b : string) :
  occurs c (a +:+ b) = occurs c a || occurs c b.
Proof.
  induction a as [|d a IH]; simpl; [reflexivity|].
  now rewrite IH, orb_assoc.
Qed.

(** What [quote_plus] writes for a character holds neither separator. *)
Lemma quote_plus_char_separators (c : ascii) :
  occurs "&" (quote_plus_char c) = false
  /\ occurs "=" (quote_plus_char c) = false.
Proof. destruct c as [[] [] [] [] [] [] [] []]; split; reflexivity. Qed.

Lemma quote_plus_separators (s : string) :
  occurs "&" (quote_plus s) = false /\ occurs "=" (quote_plus s) = false.
Proof.
  induction s as [|c s [IH1 IH2]]; simpl; [split; reflexivity|].
  rewrite !occurs_append, IH1, IH2.
  destruct (quote_plus_char_separators c) as [-> ->]. split; reflexivity.
Qed.

(** Decoding undoes the encoding of a character, whatever follows. *)
Lemma unquote_plus_char (c : ascii) (rest : string) :
  unquote_plus (quote_plus_char c +:+ rest) = String c (unquote_plus rest).
Proof. destruct c as [[] [] [] [] [] [] [] []]; reflexivity. Qed.

Lemma unquote_quote_plus (s : string) : unquote_plus (quote_plus s) = s.
Proof.
  induction s as [|c s IH]; simpl; [reflexivity|].
  now rewrite unquote_plus_char, IH.
Qed.

Lemma split_no_separator (sep : ascii) (a : string) :
  occurs sep a = false -> Py.split sep a = [a].
Proof.
  induction a as [|c a IH]; simpl; [reflexivity|].
  rewrite orb_false_iff. intros [Hc Ha]. rewrite Hc, (IH Ha). reflexivity.
Qed.

Lemma split_at_separator (sep : ascii) (a b : string) :
  occurs sep a = false ->
  Py.split sep (a +:+ String sep b) = a :: Py.split sep b.
Proof.
  induction a as [|c a IH]; simpl.
  - intros _. now rewrite Ascii.eqb_refl.
  - rewrite orb_false_iff. intros [Hc Ha]. rewrite Hc, (IH Ha). reflexivity.
Qed.

Lemma partition_eq_at_separator (a b : string) :
  occurs "=" a = false -> partition_eq (a +:+ String "=" b) = (a, b).
Proof.
  induction a as [|c a IH]; simpl; [reflexivity|].
  rewrite orb_false_iff. intros [Hc Ha]. rewrite Hc, (IH Ha). reflexivity.
Qed.

Lemma field_separator (kv : string * value) : occurs "&" (field kv) = false.
Proof.
  unfold field. rewrite !occurs_append.
  destruct (quote_plus_separators (fst kv)) as [-> _].
  destruct (quote_plus_separators (str (snd kv))) as [-> _]. reflexivity.
Qed.

Lemma field_truthy (kv : string * value) (rest : string) :
  Py.truthy (field kv +:+ rest) = true.
Proof.
  unfold field. destruct (quote_plus (fst kv)); reflexivity.
Qed.

Lemma append_cons (c : ascii) (a b : string) :
  String c a +:+ b = String c (a +:+ b).
Proof. reflexivity. Qed.

Lemma append_empty (s : string) : s +:+ "" = s.
Proof.
  induction s as [|c s IH]; [reflexivity | now rewrite append_cons, IH].
Qed.

Lemma join_fields (kv : string * value) (query : list (string * value)) :
  Py.join "&" (map field (kv :: query))
  = field kv +:+ match query with
                 | [] => ""
                 | _ => String "&" (Py.join "&" (map field query))
                 end.
Proof. destruct query; simpl; [now rewrite append_empty | reflexivity]. Qed.

(** The fields of an encoded query are the encoded items, one each. *)
Lemma query_fields_urlencode (query : list (string * value)) :
  query_fields (urlencode query) = map field query.
Proof.
  unfold query_fields, urlencode.
  destruct query as [|kv query]; [reflexivity|].
  rewrite join_fields, field_truthy, <- join_fields.
  revert kv. induction query as [|kv' query IH]; intros kv.
  - simpl. apply split_no_separator, field_separator.
  - rewrite join_fields.
    rewrite split_at_separator by apply field_separator.
    rewrite IH. reflexivity.
Qed.

Lemma parse_field (kv : string * value) :
  (unquote_plus (fst (partition_eq (field kv))),
   unquote_plus (snd (partition_eq (field kv))))
  = (fst kv, str (snd kv)).
Proof.
  change (field kv)
    with (quote_plus (fst kv) +:+ String "=" (quote_plus (str (snd kv)))).
  rewrite partition_eq_at_separator by apply quote_plus_separators.
  simpl. now rewrite !unquote_quote_plus.
Qed.

(** Parsing what [urlencode] wrote gives the items back. *)
Lemma parse_qsl_urlencode (query : list (string * value)) :
  parse_qsl (urlencode query) = map (fun kv => (fst kv, str (snd kv))) query.
Proof.
  unfold parse_qsl. rewrite query_fields_urlencode, map_map.
  apply map_ext. intros kv. apply parse_field.
Qed.

Lemma parse_qsl_get_params (kwargs : list (string * option value)) :
  parse_qsl (get_params kwargs)
  = omap (fun kv => (fun x => (fst kv, str x)) <$> snd kv) kwargs.
Proof.
  unfold get_params. rewrite parse_qsl_urlencode.
  induction kwargs as [|[d [v|]] kwargs IH]; simpl;
    [reflexivity | now rewrite IH | exact IH].
Qed.

(** The parameters of a link of the pager. *)
Lemma query_link_params (search status : option string) (page : Z) :
  exists qs,
    query_link search status page = "?" +:+ qs
    /\ parse_qsl qs
       = ([ ("page", Py.str_of_int page) ]
          ++ option_list (pair "search" <$> search)
          ++ option_list (pair "status" <$> status))%list
    /\ param "page" qs = Some (Py.str_of_int page)
    /\ param "search" qs = search
    /\ param "status" qs = status.
Proof.
  eexists. split; [reflexivity|].
  unfold param. rewrite parse_qsl_get_params.
  destruct search, status; repeat split; reflexivity.
Qed.

Lemma quote_plus_uint (d : Decimal.uint) :
  quote_plus (NilEmpty.string_of_uint d) = NilEmpty.string_of_uint d.
Proof.
  induction d as [|d IH|d IH|d IH|d IH|d IH|d IH|d IH|d IH|d IH|d IH];
    [reflexivity|..];
    cbn [NilEmpty.string_of_uint quote_plus]; rewrite IH; reflexivity.
Qed.

(** A page number needs no quoting. *)
Lemma quote_plus_str_of_int (n : Z) :
  quote_plus (Py.str_of_int n) = Py.str_of_int n.
Proof.
  unfold Py.str_of_int, NilZero.string_of_int, NilZero.string_of_uint.
  destruct (Z.to_int n) as [d|d]; destruct d;
    try reflexivity;
    try (cbn [quote_plus]; rewrite ?quote_plus_uint; reflexivity).
Qed.

(** The text of a link of the pager, field by field. *)
Lemma query_link_fields (search status : option string) (page : Z) :
  exists qs,
    query_link search status page = "?" +:+ qs
    /\ query_fields qs
       = ([ "page=" +:+ Py.str_of_int page ]
          ++ option_list ((fun s => "search=" +:+ quote_plus s) <$> search)
          ++ option_list ((fun s => "status=" +:+ quote_plus s) <$> status))%list.
Proof.
  eexists. split; [reflexivity|].
  unfold get_params. rewrite query_fields_urlencode.
  destruct search, status; cbn [not_none fmap option_fmap option_map map];
    unfold field; cbn [fst snd str];
    rewrite quote_plus_str_of_int; reflexivity.
Qed.

(** C10 as stated fails: not every link of the pager carries the search
    text.  The item of the current page, which is among the items of the
    output, links to [javascript:void(0)] whatever the search is; so do
    the previous and next items when they are disabled. *)
Lemma current_page_link_drops_search :
  In (page_item 2 (Some "a") None 2) (output 2 5 (Some "a") None 7)
  /\ Read2.href_of (page_item 2 (Some "a") None 2) = Some "javascript:void(0)"
  /\ page_link 2 (Some "a") None 2 = "javascript:void(0)"
  /\ previous_link 0 (Some "a") None = "javascript:void(0)"
  /\ next_link 4 5 (Some "a") None = "javascript:void(0)"
  /\ Py.contains "search" "javascript:void(0)" = false
  /\ param "search" "javascript:void(0)" = None.
Proof.
  split; [|repeat split; reflexivity].
  unfold output. apply in_or_app. right. apply in_or_app. right.
  apply in_or_app. left. apply in_map.
  change (pages 2 5 7) with [0; 1; 2; 3; 4]. cbn. auto.
Qed.

(** C10, amended: the query string [get_params] builds has one field for
    each keyword argument that is not [None], in order, and none for the
    others.  A query link of the pager is [?] and the fields [page], then
    [search] exactly when a search was given, then [status] exactly when a
    status was given, each with its quoted value, which parses back to the
    value given.  The first and last items always carry a query link, the
    previous item when [current_page > 0], the next item when
    [current_page < num_of_pages - 1], a page item when it is not the
    current page; the other links are [javascript:void(0)], which carries
    no parameter.  These are the links of what [generate_pages]
    returns. *)
Theorem get_params_omits_none :
  (forall kwargs : list (string * option value),
     query_fields (get_params kwargs)
     = omap (fun kv => (fun x => field (fst kv, x)) <$> snd kv) kwargs
     /\ parse_qsl (get_params kwargs)
        = omap (fun kv => (fun x => (fst kv, str x)) <$> snd kv) kwargs)
  /\ (forall (search status : option string) (page : Z),
      exists qs,
        query_link search status page = "?" +:+ qs
        /\ query_fields qs
           = ([ "page=" +:+ Py.str_of_int page ]
              ++ option_list ((fun s => "search=" +:+ quote_plus s) <$> search)
              ++ option_list ((fun s => "status=" +:+ quote_plus s) <$> status))%list
        /\ parse_qsl qs
           = ([ ("page", Py.str_of_int page) ]
              ++ option_list (pair "search" <$> search)
              ++ option_list (pair "status" <$> status))%list
        /\ param "page" qs = Some (Py.str_of_int page)
        /\ param "search" qs = search
        /\ param "status" qs = status)
  /\ (forall (current_page num_of_pages : Z) (search status : option string),
      first_link search status = query_link search status 0
      /\ last_link num_of_pages search status
         = query_link search status (num_of_pages - 1)
      /\ (0 < current_page ->
          previous_link current_page search status
          = query_link search status (current_page - 1))
      /\ (current_page <= 0 ->
          previous_link current_page search status = void_link)
      /\ (current_page < num_of_pages - 1 ->
          next_link current_page num_of_pages search status
          = query_link search status (current_page + 1))
      /\ (num_of_pages - 1 <= current_page ->
          next_link current_page num_of_pages search status = void_link)
      /\ (forall page, page <> current_page ->
          page_link current_page search status page
          = query_link search status page)
      /\ page_link current_page search status current_page = void_link)
  /\ (param "page" void_link = None /\ param "search" void_link = None
      /\ param "status" void_link = None)
  /\ (forall (current_page num_of_pages : Z) (search status : option string)
        (window : Z),
      exists head,
        generate_pages current_page num_of_pages search status window
        = Py.join Py.nl
            (head
             :: first_node (first_link search status)
                  (is_disabled_start current_page)
             :: previous_node (previous_link current_page search status)
                  (is_disabled_start current_page)
             :: map (fun page =>
                       page_node (page_is_active current_page page)
                         (page_link current_page search status page) (page + 1))
                  (pages current_page num_of_pages window)
             ++ [ next_node (next_link current_page num_of_pages search status)
                    (is_disabled_end current_page num_of_pages);
                  last_node (last_link num_of_pages search status)
                    (is_disabled_end current_page num_of_pages);
                  "</ul>" ])%list).
Proof.
  split; [|split; [|split; [|split; [repeat split; reflexivity|]]]].
  - intros kwargs. split; [|apply parse_qsl_get_params].
    unfold get_params. rewrite query_fields_urlencode.
    induction kwargs as [|[d [v|]] kwargs IH]; cbn;
      [reflexivity | now rewrite IH | exact IH].
  - intros search status page.
    destruct (query_link_params search status page) as (qs & E & Hparse & Hp).
    destruct (query_link_fields search status page) as (qs' & E' & Hf).
    assert (qs' = qs) by (rewrite E in E'; now inversion E'). subst qs'.
    exists qs. auto.
  - intros current_page num_of_pages search status.
    unfold first_link, last_link, previous_link, next_link, page_link,
      is_current, last_page.
    repeat split; try reflexivity.
    + intros H. destruct (Z.ltb_spec 0 current_page); [reflexivity | lia].
    + intros H. destruct (Z.ltb_spec 0 current_page); [lia | reflexivity].
    + intros H. destruct (Z.leb_spec (num_of_pages - 1) current_page);
        [lia | reflexivity].
    + intros H. destruct (Z.leb_spec (num_of_pages - 1) current_page);
        [reflexivity | lia].
    + intros page H. destruct (Z.eqb_spec page current_page);
        [contradiction | reflexivity].
    + now rewrite Z.eqb_refl.
  - intros. eexists. reflexivity.
Qed.

Lemma get_params_omits_none_witness :
  previous_link 3 (Some "a b") None = query_link (Some "a b") None 2
  /\ page_link 3 (Some "a b") None 4 = query_link (Some "a b") None 4.
Proof.
  destruct (proj1 (proj2 (proj2 get_params_omits_none)) 3 9 (Some "a b") None)
    as (_ & _ & Hprev & _ & _ & _ & Hpage & _).
  split; [apply Hprev; lia | apply Hpage; discriminate].
Defined.

(** * Further properties *)

Import Read2.

(** ** The window, continued *)

Lemma pages_cases (current_page num_of_pages window : Z) :
  (pages current_page num_of_pages window = seqZ 0 (Z.min num_of_pages window)
   /\ (current_page <= mid window \/ num_of_pages < window))
  \/ (pages current_page num_of_pages window
      = seqZ (current_page - mid window) (2 * mid window + 1)
      /\ mid window < current_page < num_of_pages - 1 - mid window
      /\ window <= num_of_pages)
  \/ (pages current_page num_of_pages window = seqZ (num_of_pages - window) window
      /\ mid window < current_page
      /\ num_of_pages - 1 - mid window <= current_page
      /\ window <= num_of_pages).
Proof.
  unfold pages, Py.range, last_page.
  destruct (Z.leb_spec current_page (mid window));
    destruct (Z.ltb_spec num_of_pages window); simpl;
    try (left; split; [f_equal; lia | lia]).
  destruct (Z.ltb_spec (mid window) current_page); [|lia].
  destruct (Z.ltb_spec current_page (num_of_pages - 1 - mid window)); simpl.
  - right; left. split; [f_equal; lia | lia].
  - right; right. split; [f_equal; lia | lia].
Qed.

Lemma mid_bounds (window : Z) :
  0 <= window <= 2 ^ 53 + 2 -> 0 <= 2 * mid window <= window.
Proof.
  intros H. rewrite mid_exact by exact H.
  pose proof (Z.mul_div_le window 2). pose proof (Z.div_pos window 2). lia.
Qed.

Lemma mid_odd (window : Z) :
  0 <= window <= 2 ^ 53 + 2 -> Z.odd window = true ->
  2 * mid window + 1 = window.
Proof.
  intros H Hodd. rewrite mid_exact by exact H.
  pose proof (Z.div_mod window 2). rewrite Zmod_odd, Hodd in *. lia.
Qed.

Lemma mid_even (window : Z) :
  0 <= window <= 2 ^ 53 + 2 -> Z.even window = true ->
  2 * mid window = window.
Proof.
  intros H Heven. rewrite mid_exact by exact H.
  pose proof (Z.div_mod window 2). rewrite Zmod_even, Heven in *. lia.
Qed.

(** X1: the pages shown are consecutive page numbers, and each of them is
    a page that exists, whatever the three arguments are. *)
Theorem pages_exist (current_page num_of_pages window : Z) :
  Forall (fun page => 0 <= page < num_of_pages)
         (pages current_page num_of_pages window)
  /\ exists start len,
       pages current_page num_of_pages window = seqZ start len.
Proof.
  destruct (pages_cases current_page num_of_pages window)
    as [[E H]|[(E & H1 & H2)|(E & H1 & H2 & H3)]];
    rewrite E; (split; [apply Forall_seqZ; intros; lia | eauto]).
Qed.

(** The pages are a run of consecutive numbers that covers the current
    page. *)
Lemma current_page_shown_aux (current_page num_of_pages window : Z) :
  1 <= window -> 0 <= current_page < num_of_pages ->
  exists (start : Z) (len : nat),
    pages current_page num_of_pages window = seqZ start (Z.of_nat len)
    /\ start <= current_page < start + Z.of_nat len.
Proof.
  intros Hw Hcp. pose proof (mid_lt_window window Hw) as Hm.
  destruct (pages_cases current_page num_of_pages window)
    as [[E H1]|[(E & H1 & H2)|(E & H1 & H2 & H3)]]; rewrite E.
  - exists 0, (Z.to_nat (Z.min num_of_pages window)).
    rewrite Z2Nat.id by lia. split; [reflexivity | lia].
  - exists (current_page - mid window), (Z.to_nat (2 * mid window + 1)).
    rewrite Z2Nat.id by lia. split; [reflexivity | lia].
  - exists (num_of_pages - window), (Z.to_nat window).
    rewrite Z2Nat.id by lia. split; [reflexivity | lia].
Qed.

(** X2: with a window of at least one page, a current page that exists is
    among the pages shown. *)
Theorem current_page_shown (current_page num_of_pages window : Z) :
  1 <= window -> 0 <= current_page < num_of_pages ->
  current_page ∈ pages current_page num_of_pages window.
Proof.
  intros Hw Hcp.
  destruct (current_page_shown_aux current_page num_of_pages window Hw Hcp)
    as (start & len & E & Hin).
  rewrite E, elem_of_seqZ. lia.
Qed.

Lemma current_page_shown_witness : 19 ∈ pages 19 20 7.
Proof. apply current_page_shown; lia. Defined.

(** X3: how many pages are shown, for a window from [0] to [2^53 + 2],
    where [int(window / 2)] is the exact half: all of them when there are
    fewer than the window; exactly [window] when there are at least that
    many and the window is odd; never more than [window + 1], which an even
    window reaches on a centred view. *)
Theorem pages_length (current_page num_of_pages window : Z) :
  0 <= window <= 2 ^ 53 + 2 ->
  (num_of_pages < window ->
     length (pages current_page num_of_pages window) = Z.to_nat num_of_pages)
  /\ (window <= num_of_pages -> Z.odd window = true ->
     length (pages current_page num_of_pages window) = Z.to_nat window)
  /\ (Z.even window = true ->
      mid window < current_page < num_of_pages - 1 - mid window ->
      window <= num_of_pages ->
     length (pages current_page num_of_pages window) = Z.to_nat (window + 1))
  /\ (length (pages current_page num_of_pages window) <= Z.to_nat (window + 1))%nat.
Proof.
  intros Hw. pose proof (mid_bounds window Hw) as Hm.
  destruct (pages_cases current_page num_of_pages window)
    as [[E H1]|[(E & H1 & H2)|(E & H1 & H2 & H3)]];
    rewrite E, length_seqZ; repeat split; intros;
    try (pose proof (mid_odd window Hw ltac:(assumption)));
    try (pose proof (mid_even window Hw ltac:(assumption)));
    try lia; try (f_equal; lia).
Qed.

(** Past that the count is off: a window of [2^53 + 3] pages, which is
    odd, shows [window + 2] pages on a centred view. *)
Lemma pages_length_large_window :
  length (pages (2 ^ 53) (2 ^ 54) (2 ^ 53 + 3)) = Z.to_nat (2 ^ 53 + 3 + 2).
Proof.
  rewrite pages_large_window. apply length_seqZ.
Qed.

Lemma pages_length_witness :
  length (pages 0 3 7) = 3%nat /\ length (pages 10 20 7) = 7%nat
  /\ length (pages 5 10 4) = 5%nat.
Proof.
  split; [|split].
  - destruct (pages_length 0 3 7) as [H _]; [split; vm_compute; discriminate|].
    apply H. lia.
  - destruct (pages_length 10 20 7) as (_ & H & _);
      [split; vm_compute; discriminate|].
    apply H; [lia | reflexivity].
  - destruct (pages_length 5 10 4) as (_ & _ & H & _);
      [split; vm_compute; discriminate|].
    apply H; [reflexivity | vm_compute; split; reflexivity | lia].
Defined.

(** ** The items of the pager, continued *)

Lemma page_item_active (current_page : Z) (search status : option string)
    (page : Z) :
  has_class "active" (page_item current_page search status page)
  = (page =? current_page).
Proof.
  unfold page_item, page_is_active, is_current.
  destruct (page =? current_page); reflexivity.
Qed.

Lemma filter_eqb_seqZ (c start : Z) (len : nat) :
  List.filter (fun page => page =? c) (seqZ start (Z.of_nat len))
  = if (start <=? c) && (c <? start + Z.of_nat len) then [c] else [].
Proof.
  revert start. induction len as [|len IH]; intros start.
  - change (seqZ start (Z.of_nat 0)) with (@nil Z). cbn [List.filter].
    destruct (Z.leb_spec start c), (Z.ltb_spec c (start + Z.of_nat 0));
      cbn [andb]; try reflexivity; lia.
  - rewrite seqZ_cons by lia. cbn [List.filter].
    replace (Z.pred (Z.of_nat (S len))) with (Z.of_nat len) by lia.
    rewrite IH.
    destruct (Z.eqb_spec start c) as [Heq|Hne].
    + subst c.
      destruct (Z.leb_spec (Z.succ start) start), (Z.leb_spec start start),
        (Z.ltb_spec start (start + Z.of_nat (S len)));
        cbn [andb]; try reflexivity; lia.
    + destruct (Z.leb_spec (Z.succ start) c), (Z.leb_spec start c),
        (Z.ltb_spec c (Z.succ start + Z.of_nat len)),
        (Z.ltb_spec c (start + Z.of_nat (S len)));
        cbn [andb]; try reflexivity; lia.
Qed.

(** X4: with a window of at least one page and a current page that
    exists, exactly one page item has the class [active]: the one of the
    current page. *)
Theorem one_active_item (current_page num_of_pages window : Z)
    (search status : option string) :
  1 <= window -> 0 <= current_page < num_of_pages ->
  List.filter
    (fun page => has_class "active" (page_item current_page search status page))
    (pages current_page num_of_pages window)
  = [current_page].
Proof.
  intros Hw Hcp.
  pose proof (current_page_shown_aux current_page num_of_pages window Hw Hcp)
    as (start & len & E & Hin).
  rewrite E.
  rewrite (List.filter_ext _ (fun page => page =? current_page))
    by (intros page; apply page_item_active).
  rewrite filter_eqb_seqZ.
  destruct (Z.leb_spec start current_page),
    (Z.ltb_spec current_page (start + Z.of_nat len));
    cbn [andb]; try reflexivity; lia.
Qed.

Lemma one_active_item_witness :
  List.filter
    (fun page => has_class "active" (page_item 10 (Some "a") None page))
    (pages 10 20 7)
  = [10].
Proof. apply one_active_item; lia. Defined.

(** ** Links and markup *)

Lemma query_link_not_void (search status : option string) (page : Z) :
  query_link search status page <> void_link.
Proof. unfold query_link, void_link. intros H. inversion H. Qed.

(** X5: the previous item links nowhere exactly when it is disabled, and
    to the page before the current one otherwise; likewise the next item
    and the page after.  The first and last items always link to page [0]
    and to the last page, disabled or not. *)
Theorem step_links (current_page num_of_pages : Z)
    (search status : option string) :
  (previous_link current_page search status = void_link
     <-> has_class "disabled" (previous_item current_page search status) = true)
  /\ (previous_link current_page search status <> void_link ->
      previous_link current_page search status
      = query_link search status (current_page - 1))
  /\ (next_link current_page num_of_pages search status = void_link
     <-> has_class "disabled"
           (next_item current_page num_of_pages search status) = true)
  /\ (next_link current_page num_of_pages search status <> void_link ->
      next_link current_page num_of_pages search status
      = query_link search status (current_page + 1))
  /\ first_link search status = query_link search status 0
  /\ last_link num_of_pages search status
     = query_link search status (num_of_pages - 1)
  /\ first_link search status <> void_link
  /\ last_link num_of_pages search status <> void_link.
Proof.
  rewrite previous_item_class, next_item_class.
  unfold previous_link, next_link, first_link, last_link, last_page.
  pose proof (query_link_not_void search status) as Hq.
  destruct (Z.ltb_spec 0 current_page), (Z.leb_spec current_page 0);
    try lia;
    destruct (Z.leb_spec (num_of_pages - 1) current_page);
    repeat split; intros; try reflexivity; try congruence;
    try (exfalso; eapply Hq; eassumption).
Qed.

Lemma step_links_witness :
  previous_link 3 None None = query_link None None 2
  /\ next_link 3 9 None None = query_link None None 4.
Proof.
  split.
  - destruct (step_links 3 9 None None) as (_ & H & _).
    apply H. discriminate.
  - destruct (step_links 3 9 None None) as (_ & _ & _ & H & _).
    apply H. discriminate.
Defined.

Lemma count_append (c : ascii) (a b : string) :
  count c (a +:+ b) = (count c a + count c b)%nat.
Proof.
  induction a as [|d a IH]; [reflexivity|].
  rewrite append_cons. cbn [count]. rewrite IH. lia.
Qed.

(** [escape] writes none of the characters that open or close a tag or an
    attribute value. *)
Lemma escape_char_clean (c : ascii) :
  count "<" (Markupsafe.escape_char c) = 0%nat
  /\ count ">" (Markupsafe.escape_char c) = 0%nat
  /\ count (ascii_of_nat 34) (Markupsafe.escape_char c) = 0%nat
  /\ count "'" (Markupsafe.escape_char c) = 0%nat.
Proof. destruct c as [[] [] [] [] [] [] [] []]; repeat split; reflexivity. Qed.

Lemma escape_clean (s : string) :
  count "<" (Markupsafe.escape s) = 0%nat
  /\ count ">" (Markupsafe.escape s) = 0%nat
  /\ count (ascii_of_nat 34) (Markupsafe.escape s) = 0%nat
  /\ count "'" (Markupsafe.escape s) = 0%nat.
Proof.
  induction s as [|c s (IH1 & IH2 & IH3 & IH4)]; [repeat split; reflexivity|].
  cbn [Markupsafe.escape]. rewrite !count_append, IH1, IH2, IH3, IH4.
  destruct (escape_char_clean c) as (-> & -> & -> & ->).
  repeat split; reflexivity.
Qed.

Lemma count_join (c : ascii) (l : list string) :
  count c Py.nl = 0%nat ->
  count c (Py.join Py.nl l) = list_sum (map (count c) l).
Proof.
  intros Hnl. induction l as [|x [|y l] IH].
  - reflexivity.
  - simpl. lia.
  - change (Py.join Py.nl (x :: y :: l))
      with (x +:+ Py.nl +:+ Py.join Py.nl (y :: l)).
    rewrite !count_append, Hnl, IH. simpl. lia.
Qed.

Ltac count_template :=
  unfold first_item, previous_item, next_item, last_item, page_item,
    first_node, previous_node, next_node, last_node, page_node,
    anchor, Markupsafe.attr;
  rewrite !count_append;
  repeat match goal with
         | |- context [count ?c (Markupsafe.escape ?s)] =>
             first [ rewrite (proj1 (escape_clean s))
                   | rewrite (proj1 (proj2 (proj2 (escape_clean s)))) ]
         end;
  reflexivity.

Lemma count_items (current_page num_of_pages : Z)
    (search status : option string) :
  (count "<" (first_item current_page search status) = 4
   /\ count "<" (previous_item current_page search status) = 4
   /\ count "<" (next_item current_page num_of_pages search status) = 4
   /\ count "<" (last_item current_page num_of_pages search status) = 4
   /\ forall page, count "<" (page_item current_page search status page) = 4)%nat
  /\ (count (ascii_of_nat 34) (first_item current_page search status) = 12
   /\ count (ascii_of_nat 34) (previous_item current_page search status) = 12
   /\ count (ascii_of_nat 34)
        (next_item current_page num_of_pages search status) = 12
   /\ count (ascii_of_nat 34)
        (last_item current_page num_of_pages search status) = 12
   /\ forall page,
        count (ascii_of_nat 34) (page_item current_page search status page)
        = 10)%nat.
Proof. repeat split; intros; count_template. Qed.

Lemma list_sum_const (A : Type) (f : A -> nat) (n : nat) (l : list A) :
  (forall x, f x = n) -> list_sum (map f l) = (n * length l)%nat.
Proof.
  intros H. induction l as [|x l IH]; simpl; [lia|]. rewrite H, IH. lia.
Qed.

(** X6: whatever the search text and the status are, the pager holds no
    tag and no attribute beyond those of its templates: the number of
    opening angle brackets and of double quotes in the output depends on
    the number of pages shown alone. *)
Theorem generate_pages_markup (current_page num_of_pages : Z)
    (search status : option string) (window : Z) :
  count "<" (generate_pages current_page num_of_pages search status window)
  = (18 + 4 * length (pages current_page num_of_pages window))%nat
  /\ count (ascii_of_nat 34)
       (generate_pages current_page num_of_pages search status window)
     = (52 + 10 * length (pages current_page num_of_pages window))%nat.
Proof.
  destruct (count_items current_page num_of_pages search status)
    as [(F1 & F2 & F3 & F4 & F5) (Q1 & Q2 & Q3 & Q4 & Q5)].
  unfold generate_pages. rewrite !count_join by reflexivity.
  unfold output. rewrite !map_app, !list_sum_app, !map_map.
  rewrite (list_sum_const _
             (fun page => count "<" (page_item current_page search status page))
             4%nat) by exact F5.
  rewrite (list_sum_const _
             (fun page => count (ascii_of_nat 34)
                            (page_item current_page search status page))
             10%nat) by exact Q5.
  cbn [map]. rewrite F1, F2, F3, F4, Q1, Q2, Q3, Q4.
  repeat match goal with
         | |- context [list_sum ?l] =>
             let v := eval vm_compute in (list_sum l) in
             change (list_sum l) with v
         end.
  split; lia.
Qed.

(** Undoing [escape], one character at a time. *)
Lemma unescape_escape_char (c : ascii) (rest : string) :
  unescape_from 0 (Markupsafe.escape_char c +:+ rest)
  = String c (unescape_from 0 rest).
Proof. destruct c as [[] [] [] [] [] [] [] []]; reflexivity. Qed.

Lemma unescape_escape (s : string) : unescape (Markupsafe.escape s) = s.
Proof.
  unfold unescape. induction s as [|c s IH]; [reflexivity|].
  cbn [Markupsafe.escape]. now rewrite unescape_escape_char, IH.
Qed.

Lemma until_quote_escape_char (c : ascii) (rest : string) :
  until_quote (Markupsafe.escape_char c +:+ rest)
  = Markupsafe.escape_char c +:+ until_quote rest.
Proof. destruct c as [[] [] [] [] [] [] [] []]; reflexivity. Qed.

(** An escaped text runs up to the quote that closes its attribute. *)
Lemma until_quote_escape (s rest : string) :
  until_quote (Markupsafe.escape s +:+ Py.dq +:+ rest) = Markupsafe.escape s.
Proof.
  induction s as [|c s IH]; [reflexivity|].
  cbn [Markupsafe.escape].
  replace ((Markupsafe.escape_char c +:+ Markupsafe.escape s) +:+ Py.dq +:+ rest)
    with (Markupsafe.escape_char c +:+ Markupsafe.escape s +:+ Py.dq +:+ rest).
  - now rewrite until_quote_escape_char, IH.
  - generalize (Markupsafe.escape_char c). intros a.
    induction a as [|d a IHa]; [reflexivity|].
    rewrite !append_cons. now rewrite IHa.
Qed.

Lemma until_quote_append (a t : string) :
  occurs (ascii_of_nat 34) a = true -> until_quote (a +:+ t) = until_quote a.
Proof.
  induction a as [|c a IH]; [discriminate|].
  rewrite append_cons. cbn [until_quote occurs].
  destruct (Ascii.eqb c (ascii_of_nat 34)); [reflexivity|].
  cbn [orb]. intros H. now rewrite IH.
Qed.

Lemma until_quote_attr (s t r : string) :
  until_quote (((Markupsafe.escape s +:+ Py.dq) +:+ t) +:+ r)
  = Markupsafe.escape s.
Proof.
  assert (Hq : occurs (ascii_of_nat 34) (Markupsafe.escape s +:+ Py.dq) = true).
  { rewrite occurs_append. apply orb_true_r. }
  rewrite until_quote_append.
  - rewrite until_quote_append by exact Hq.
    apply (until_quote_escape s "").
  - rewrite occurs_append, Hq. reflexivity.
Qed.

Lemma href_of_anchor (before href_link dt_idx content rest : string) :
  after ("href=" +:+ Py.dq)
        (before +:+ anchor (Markupsafe.escape href_link) dt_idx content +:+ rest)
  = Some (((Markupsafe.escape href_link +:+ Py.dq) +:+
           (" " +:+ Markupsafe.attr "aria-controls" "dags" +:+ " "
            +:+ Markupsafe.attr "data-dt-idx" dt_idx +:+ " "
            +:+ Markupsafe.attr "tabindex" "0" +:+ ">" +:+ content +:+ "</a>"))
          +:+ rest) ->
  href_of (before +:+ anchor (Markupsafe.escape href_link) dt_idx content +:+ rest)
  = Some href_link.
Proof.
  intros H. unfold href_of. rewrite H. cbn [fmap option_fmap option_map].
  now rewrite until_quote_attr, unescape_escape.
Qed.

(** X7: the link a browser reads in the [href] of each item of the pager
    is the link the function computed for it, whatever characters the
    search text and the status hold; so the link of a page other than the
    current one gives back that page number, the search text and the
    status. *)
Theorem items_href (current_page num_of_pages : Z)
    (search status : option string) :
  href_of (first_item current_page search status)
  = Some (first_link search status)
  /\ href_of (previous_item current_page search status)
     = Some (previous_link current_page search status)
  /\ href_of (next_item current_page num_of_pages search status)
     = Some (next_link current_page num_of_pages search status)
  /\ href_of (last_item current_page num_of_pages search status)
     = Some (last_link num_of_pages search status)
  /\ (forall page,
       href_of (page_item current_page search status page)
       = Some (page_link current_page search status page))
  /\ (forall page, page <> current_page ->
      exists qs,
        href_of (page_item current_page search status page)
        = Some ("?" +:+ qs)
        /\ param "page" qs = Some (Py.str_of_int page)
        /\ param "search" qs = search
        /\ param "status" qs = status).
Proof.
  assert (Hitems :
    href_of (first_item current_page search status)
    = Some (first_link search status)
    /\ href_of (previous_item current_page search status)
       = Some (previous_link current_page search status)
    /\ href_of (next_item current_page num_of_pages search status)
       = Some (next_link current_page num_of_pages search status)
    /\ href_of (last_item current_page num_of_pages search status)
       = Some (last_link num_of_pages search status)
    /\ forall page,
         href_of (page_item current_page search status page)
         = Some (page_link current_page search status page));
  [|destruct Hitems as (H1 & H2 & H3 & H4 & H5);
    repeat split; try assumption;
    intros page Hne; rewrite H5; unfold page_link, is_current;
    destruct (Z.eqb_spec page current_page); [contradiction|];
    destruct (query_link_params search status page) as (qs & -> & _ & Hp);
    exists qs; split; [reflexivity | exact Hp]].
  unfold first_item, previous_item, next_item, last_item, page_item,
    first_node, previous_node, next_node, last_node, page_node,
    is_disabled_start, is_disabled_end, page_is_active.
  repeat split; intros;
    repeat match goal with
           | |- context [if ?b then _ else _] =>
               match b with
               | context [if _ then _ else _] => fail 1
               | _ => destruct b
               end
           end.
  all: lazymatch goal with
       | |- href_of (?a1 +:+ ?a2 +:+ ?a3 +:+ ?a4 +:+ ?a5 +:+ ?a6
                     +:+ anchor (Markupsafe.escape ?l) ?i ?c +:+ ?rest) = _ =>
           change (href_of ((a1 +:+ a2 +:+ a3 +:+ a4 +:+ a5 +:+ a6)
                            +:+ anchor (Markupsafe.escape l) i c +:+ rest)
                   = Some l);
           apply href_of_anchor; reflexivity
       | |- href_of (?a1 +:+ ?a2 +:+ ?a3 +:+ ?a4
                     +:+ anchor (Markupsafe.escape ?l) ?i ?c +:+ ?rest) = _ =>
           change (href_of ((a1 +:+ a2 +:+ a3 +:+ a4)
                            +:+ anchor (Markupsafe.escape l) i c +:+ rest)
                   = Some l);
           apply href_of_anchor; reflexivity
       end.
Qed.

Lemma items_href_witness :
  exists qs,
    href_of (page_item 1 (Some "a<b&c") None 2) = Some ("?" +:+ qs)
    /\ param "page" qs = Some (Py.str_of_int 2)
    /\ param "search" qs = Some "a<b&c"
    /\ param "status" qs = None.
Proof.
  destruct (items_href 1 3 (Some "a<b&c") None) as (_ & _ & _ & _ & _ & H).
  apply H. discriminate.
Defined.

(** ** Query strings, continued *)

Lemma all_chars_append (p : ascii -> bool) (a b : string) :
  all_chars p (a +:+ b) = all_chars p a && all_chars p b.
Proof.
  induction a as [|c a IH]; [reflexivity|].
  rewrite append_cons. cbn [all_chars]. now rewrite IH, andb_assoc.
Qed.

Lemma quote_plus_char_chars (c : ascii) :
  all_chars query_char (quote_plus_char c) = true.
Proof. destruct c as [[] [] [] [] [] [] [] []]; reflexivity. Qed.

Lemma quote_plus_chars (s : string) : all_chars query_char (quote_plus s) = true.
Proof.
  induction s as [|c s IH]; [reflexivity|].
  cbn [quote_plus]. now rewrite all_chars_append, quote_plus_char_chars, IH.
Qed.

(** X8: whatever the names and the values are, the query string
    [get_params] returns holds only characters that may stand in a query:
    letters, digits, [_.-~], the [%] and [+] of the encoding and the
    separators [=] and [&]. *)
Theorem get_params_chars (kwargs : list (string * option value)) :
  all_chars query_char (get_params kwargs) = true.
Proof.
  unfold get_params, urlencode. generalize (not_none kwargs). intros query.
  induction query as [|kv query IH]; [reflexivity|].
  rewrite join_fields, all_chars_append. apply andb_true_iff. split.
  - unfold field. now rewrite !all_chars_append, !quote_plus_chars.
  - destruct query as [|kv' query]; [reflexivity|]. exact IH.
Qed.

(** ** Sensitive variable fields, continued *)

Lemma lower_char_not_upper (c : ascii) : is_upper (Py.lower_char c) = false.
Proof. destruct c as [[] [] [] [] [] [] [] []]; reflexivity. Qed.

Lemma lower_no_upper (s : string) : has_upper (Py.lower s) = false.
Proof.
  induction s as [|c s IH]; [reflexivity|].
  cbn [Py.lower has_upper]. now rewrite lower_char_not_upper, IH.
Qed.

Lemma has_upper_append (a b : string) :
  has_upper (a +:+ b) = has_upper a || has_upper b.
Proof.
  induction a as [|c a IH]; [reflexivity|].
  rewrite append_cons. cbn [has_upper]. now rewrite IH, orb_assoc.
Qed.

Lemma substring_no_upper (s t : string) :
  substring_of s t -> has_upper t = false -> has_upper s = false.
Proof.
  intros (a & b & ->). rewrite !has_upper_append, !orb_false_iff. tauto.
Qed.

(** X9: a field only ever matches when it holds no upper-case letter of
    [A-Z], since keys are compared in lower case and fields as they are
    written.  With [strip] and [lower] as the interpreter has them, [lower]
    leaving no letter of [A-Z] in its result: a key is hidden exactly when
    it is not empty, the toggle is on and some field without such a letter
    occurs in the stripped, lower-cased key. *)
Theorem upper_case_fields_never_match (str_strip str_lower : string -> string)
    (c : conf) (key : string) :
  (forall x, has_upper (str_lower x) = false) ->
  Sensitive.should_hide_value_for_key str_strip str_lower c (Some key) = true
  <-> key <> "" /\ hide_sensitive_variable_fields c = true
      /\ exists s, s ∈ Sensitive.get_sensitive_variables_fields str_strip c
           /\ has_upper s = false
           /\ substring_of s (str_lower (str_strip key)).
Proof.
  intros Hlow. rewrite should_hide_str_true. split.
  - intros (Hk & Hc & s & Hin & Hs). repeat split; auto.
    exists s. repeat split; auto.
    eapply substring_no_upper; [exact Hs | apply Hlow].
  - intros (Hk & Hc & s & Hin & _ & Hs). eauto.
Qed.

Lemma upper_case_fields_never_match_witness :
  Sensitive.should_hide_value_for_key Py.strip Py.lower
    {| sensitive_variable_fields := "Token";
       hide_sensitive_variable_fields := true |} (Some "my_token") = false
  /\ Sensitive.should_hide_value_for_key Py.strip Py.lower
       {| sensitive_variable_fields := "token";
          hide_sensitive_variable_fields := true |} (Some "My_Token") = true.
Proof.
  split; [reflexivity|].
  apply (upper_case_fields_never_match Py.strip Py.lower
           {| sensitive_variable_fields := "token";
              hide_sensitive_variable_fields := true |} "My_Token"
           lower_no_upper).
  split; [discriminate|]. split; [reflexivity|].
  exists "token". split; [|split; [reflexivity|]].
  - apply elem_of_sensitive_fields_str. right. split; [discriminate|].
    exists "token". split; [apply list_elem_of_here | reflexivity].
  - exists "my_", "". reflexivity.
Defined.

Lemma split_nonempty (sep : ascii) (a : string) : Py.split sep a <> [].
Proof.
  destruct a as [|c a]; cbn [Py.split]; [discriminate|].
  destruct (Ascii.eqb c sep); [discriminate|].
  destruct (Py.split sep a); discriminate.
Qed.

Lemma split_append (sep : ascii) (a b : string) :
  Py.split sep (a +:+ String sep b) = (Py.split sep a ++ Py.split sep b)%list.
Proof.
  induction a as [|c a IH].
  - change ("" +:+ String sep b) with (String sep b). cbn [Py.split app].
    now rewrite Ascii.eqb_refl.
  - rewrite append_cons. cbn [Py.split]. rewrite IH.
    destruct (Ascii.eqb c sep); [reflexivity|].
    pose proof (split_nonempty sep a) as Hne.
    destruct (Py.split sep a); [contradiction | reflexivity].
Qed.

Lemma strip_empty_hides (str_strip str_lower : string -> string)
    (c : conf) (key piece : string) :
  hide_sensitive_variable_fields c = true ->
  sensitive_variable_fields c <> "" ->
  piece ∈ Py.split "," (sensitive_variable_fields c) ->
  str_strip piece = "" ->
  key <> "" ->
  Sensitive.should_hide_value_for_key str_strip str_lower c (Some key) = true.
Proof.
  intros Hc Hne Hin Hstrip Hkey. apply should_hide_str_true.
  repeat split; auto. exists "". split.
  - apply elem_of_sensitive_fields_str. right. split; [exact Hne|]. eauto.
  - exists "", (str_lower (str_strip key)). reflexivity.
Qed.

(** X10: with the toggle on, a configured list with a piece that [strip]
    reduces to the empty string, as the interpreter's [strip] does it,
    hides every key that is not empty; a list that ends with a comma is
    such a list, the empty piece being stripped to itself. *)
Theorem empty_field_hides_all (str_strip str_lower : string -> string)
    (c : conf) (key : string) :
  hide_sensitive_variable_fields c = true -> key <> "" ->
  (forall piece,
     sensitive_variable_fields c <> "" ->
     piece ∈ Py.split "," (sensitive_variable_fields c) ->
     str_strip piece = "" ->
     Sensitive.should_hide_value_for_key str_strip str_lower c (Some key) = true)
  /\ (forall fields,
       str_strip "" = "" ->
       sensitive_variable_fields c = fields +:+ "," ->
       Sensitive.should_hide_value_for_key str_strip str_lower c (Some key) = true).
Proof.
  intros Hc Hkey. split.
  - intros piece Hne Hin Hstrip. eapply strip_empty_hides; eauto.
  - intros fields Hstrip E. apply (strip_empty_hides _ _ c key ""); auto.
    + rewrite E. destruct fields; discriminate.
    + rewrite E. change (fields +:+ ",") with (fields +:+ String "," "").
      rewrite split_append. apply elem_of_app. right. apply list_elem_of_here.
Qed.

Lemma empty_field_hides_all_witness :
  Sensitive.should_hide_value_for_key Py.strip Py.lower
    {| sensitive_variable_fields := "token,";
       hide_sensitive_variable_fields := true |} (Some "dag_owner") = true.
Proof.
  destruct (empty_field_hides_all Py.strip Py.lower
              {| sensitive_variable_fields := "token,";
                 hide_sensitive_variable_fields := true |} "dag_owner")
    as [_ H]; [reflexivity | discriminate |].
  apply (H "token"); reflexivity.
Defined.



















(** ** Column names *)

Section DictFacts.

Context {V : Type}.
Implicit Types (d : list (string * V)) (k : string) (v : V).

Lemma get_setitem_eq k v d : Dict.get k (Dict.setitem k v d) = Some v.
Proof.
  unfold Dict.get. induction d as [|[k' v'] d IH]; cbn.
  - now rewrite String.eqb_refl.
  - destruct (String.eqb_spec k' k) as [->|Hne]; cbn.
    + now rewrite String.eqb_refl.
    + apply String.eqb_neq in Hne. now rewrite Hne.
Qed.

Lemma get_setitem_ne k k' v d :
  k <> k' -> Dict.get k' (Dict.setitem k v d) = Dict.get k' d.
Proof.
  intros Hne. unfold Dict.get. induction d as [|[k0 v0] d IH]; cbn.
  - apply String.eqb_neq in Hne. now rewrite Hne.
  - destruct (String.eqb_spec k0 k) as [->|Hne0]; cbn.
    + apply String.eqb_neq in Hne. now rewrite Hne.
    + destruct (String.eqb k0 k'); [reflexivity | exact IH].
Qed.

Lemma keys_setitem k v d :
  Dict.keys (Dict.setitem k v d)
  = if bool_decide (k ∈ Dict.keys d) then Dict.keys d
    else (Dict.keys d ++ [k])%list.
Proof.
  unfold Dict.keys. induction d as [|[k' v'] d IH]; cbn; [reflexivity|].
  destruct (String.eqb_spec k' k) as [->|Hne]; cbn.
  - rewrite bool_decide_eq_true_2 by apply list_elem_of_here. reflexivity.
  - rewrite IH. destruct (bool_decide (k ∈ map fst d)) eqn:E.
    + apply bool_decide_eq_true in E.
      rewrite bool_decide_eq_true_2 by now apply list_elem_of_further.
      reflexivity.
    + apply bool_decide_eq_false in E.
      rewrite bool_decide_eq_false_2; [reflexivity|].
      intros Hin. apply elem_of_cons in Hin. destruct Hin; congruence.
Qed.

Lemma rekey_snoc (f : string -> string) d (kv : string * V) :
  Dict.rekey f (d ++ [kv]) = Dict.setitem (f (fst kv)) (snd kv) (Dict.rekey f d).
Proof. unfold Dict.rekey. now rewrite fold_left_app. Qed.

(** Lookup after a comprehension: the last item that maps to the name. *)
Lemma get_rekey (f : string -> string) d k :
  Dict.get k (Dict.rekey f d)
  = snd <$> List.find (fun kv => String.eqb (f (fst kv)) k) (rev d).
Proof.
  induction d as [|kv d IH] using rev_ind; [reflexivity|].
  rewrite rekey_snoc, rev_app_distr. cbn [rev app List.find].
  destruct (String.eqb_spec (f (fst kv)) k) as [<-|Hne].
  - apply get_setitem_eq.
  - rewrite get_setitem_ne by exact Hne. exact IH.
Qed.

Lemma keys_rekey (f : string -> string) d :
  NoDup (Dict.keys (Dict.rekey f d))
  /\ forall k, k ∈ Dict.keys (Dict.rekey f d)
       <-> exists k0, k0 ∈ Dict.keys d /\ f k0 = k.
Proof.
  induction d as [|kv d [IH1 IH2]] using rev_ind.
  - split; [constructor|]. intros k. split.
    + intros H. now apply elem_of_nil in H.
    + intros (k0 & H & _). now apply elem_of_nil in H.
  - rewrite rekey_snoc, keys_setitem. unfold Dict.keys in *.
    rewrite map_app. cbn [map].
    destruct (bool_decide (f (fst kv) ∈ map fst (Dict.rekey f d))) eqn:E.
    + apply bool_decide_eq_true in E. split; [exact IH1|].
      intros k. rewrite IH2. split.
      * intros (k0 & H & Hk). exists k0. split; [|exact Hk].
        apply elem_of_app. now left.
      * intros (k0 & H & Hk). apply elem_of_app in H. destruct H as [H|H].
        -- eauto.
        -- apply list_elem_of_singleton in H. subst k0 k. now apply IH2.
    + apply bool_decide_eq_false in E. split.
      * apply NoDup_app. split; [exact IH1|]. split.
        -- intros x Hx Hx'. apply list_elem_of_singleton in Hx'. now subst x.
        -- apply NoDup_singleton.
      * intros k. rewrite !elem_of_app, IH2, !list_elem_of_singleton. split.
        -- intros [(k0 & H & Hk)| ->].
           ++ exists k0. rewrite elem_of_app. auto.
           ++ exists (fst kv). rewrite elem_of_app, list_elem_of_singleton. auto.
        -- intros (k0 & H & Hk). apply elem_of_app in H. destruct H as [H|H].
           ++ left. eauto.
           ++ apply list_elem_of_singleton in H. subst k0. now right.
Qed.

(** Without two keys of the same new name the comprehension renames the
    items in place. *)
Lemma rekey_no_collision (f : string -> string) d :
  NoDup (map f (Dict.keys d)) ->
  Dict.rekey f d = map (fun kv => (f (fst kv), snd kv)) d.
Proof.
  induction d as [|kv d IH] using rev_ind; [reflexivity|].
  unfold Dict.keys. rewrite !map_app. cbn [map]. intros Hnd.
  apply NoDup_app in Hnd. destruct Hnd as (Hnd & Hfresh & _).
  rewrite rekey_snoc, (IH Hnd). clear IH.
  assert (Hk : f (fst kv) ∉ map f (map fst d)).
  { intros Hin. apply (Hfresh _ Hin). apply list_elem_of_here. }
  clear Hfresh Hnd. induction d as [|[k0 v0] d IHd]; [reflexivity|].
  cbn [map Dict.setitem fst snd app]. cbn [map fst] in Hk.
  apply not_elem_of_cons in Hk. destruct Hk as [Hne Hk].
  destruct (String.eqb_spec (f k0) (f (fst kv))); [congruence|].
  now rewrite (IHd Hk).
Qed.

End DictFacts.

Lemma starts_with_underscore (c : ascii) (k : string) :
  starts_with "_" (String c k) = Ascii.eqb c "_".
Proof.
  unfold starts_with. cbn [Read.strip_prefix]. rewrite Ascii.eqb_sym.
  now destruct (Ascii.eqb c "_").
Qed.

Lemma lstrip_underscores_clean (k : string) :
  starts_with "_" (CustomSQLAInterface.lstrip_underscores k) = false.
Proof.
  induction k as [|c k IH]; [reflexivity|].
  cbn [CustomSQLAInterface.lstrip_underscores].
  destruct (Ascii.eqb c "_") eqn:E; [exact IH|].
  now rewrite starts_with_underscore.
Qed.

Lemma lstrip_underscores_id (k : string) :
  starts_with "_" k = false -> CustomSQLAInterface.lstrip_underscores k = k.
Proof.
  destruct k as [|c k]; [reflexivity|]. rewrite starts_with_underscore.
  cbn [CustomSQLAInterface.lstrip_underscores]. now intros ->.
Qed.

Lemma clean_dict_rekey {V : Type} (d : list (string * V)) :
  (if Dict.truthy d
   then Dict.rekey CustomSQLAInterface.lstrip_underscores d else d)
  = Dict.rekey CustomSQLAInterface.lstrip_underscores d.
Proof. now destruct d. Qed.

(** X13: after [clean_column_names] no key of [list_properties] or of
    [list_columns] starts with an underscore, the keys are distinct, and a
    name is a key exactly when it is an old key without its leading
    underscores. *)
Theorem clean_column_names_keys (P C : Type)
    (self : CustomSQLAInterface.column_dicts (P := P) (C := C)) :
  let cleaned := CustomSQLAInterface.clean_column_names self in
  (NoDup (Dict.keys (CustomSQLAInterface.list_properties cleaned))
   /\ forall k, k ∈ Dict.keys (CustomSQLAInterface.list_properties cleaned)
        <-> starts_with "_" k = false
            /\ exists k0,
                 k0 ∈ Dict.keys (CustomSQLAInterface.list_properties self)
                 /\ CustomSQLAInterface.lstrip_underscores k0 = k)
  /\ (NoDup (Dict.keys (CustomSQLAInterface.list_columns cleaned))
   /\ forall k, k ∈ Dict.keys (CustomSQLAInterface.list_columns cleaned)
        <-> starts_with "_" k = false
            /\ exists k0,
                 k0 ∈ Dict.keys (CustomSQLAInterface.list_columns self)
                 /\ CustomSQLAInterface.lstrip_underscores k0 = k).
Proof.
  cbn zeta. unfold CustomSQLAInterface.clean_column_names.
  cbn [CustomSQLAInterface.list_properties CustomSQLAInterface.list_columns].
  rewrite !clean_dict_rekey.
  split;
    match goal with
    | |- context [Dict.rekey ?f ?d] =>
        destruct (keys_rekey f d) as [Hnd Hk]
    end;
    (split; [exact Hnd|]); intros k; rewrite Hk; split.
  - intros (k0 & H & <-). split; [apply lstrip_underscores_clean | eauto].
  - tauto.
  - intros (k0 & H & <-). split; [apply lstrip_underscores_clean | eauto].
  - tauto.
Qed.

(** X14: in the cleaned dicts a name holds the value of the last old item
    whose key, without its leading underscores, is that name: of two keys
    that become the same name the later one wins.  When no two keys become
    the same name, every item stays in its place under its new name. *)
Theorem clean_column_names_values (P C : Type)
    (self : CustomSQLAInterface.column_dicts (P := P) (C := C)) :
  let cleaned := CustomSQLAInterface.clean_column_names self in
  let strip := CustomSQLAInterface.lstrip_underscores in
  (forall k,
     Dict.get k (CustomSQLAInterface.list_properties cleaned)
     = snd <$> List.find (fun kv => String.eqb (strip (fst kv)) k)
                 (rev (CustomSQLAInterface.list_properties self)))
  /\ (forall k,
     Dict.get k (CustomSQLAInterface.list_columns cleaned)
     = snd <$> List.find (fun kv => String.eqb (strip (fst kv)) k)
                 (rev (CustomSQLAInterface.list_columns self)))
  /\ (NoDup (map strip (Dict.keys (CustomSQLAInterface.list_properties self))) ->
      CustomSQLAInterface.list_properties cleaned
      = map (fun kv => (strip (fst kv), snd kv))
            (CustomSQLAInterface.list_properties self))
  /\ (NoDup (map strip (Dict.keys (CustomSQLAInterface.list_columns self))) ->
      CustomSQLAInterface.list_columns cleaned
      = map (fun kv => (strip (fst kv), snd kv))
            (CustomSQLAInterface.list_columns self)).
Proof.
  cbn zeta. unfold CustomSQLAInterface.clean_column_names.
  cbn [CustomSQLAInterface.list_properties CustomSQLAInterface.list_columns].
  rewrite !clean_dict_rekey.
  repeat split; intros; first [apply get_rekey | now apply rekey_no_collision].
Qed.

Lemma clean_column_names_values_witness :
  CustomSQLAInterface.list_columns
    (CustomSQLAInterface.clean_column_names
       {| CustomSQLAInterface.list_properties := [("_state", 1%nat)];
          CustomSQLAInterface.list_columns :=
            [("_state", 1%nat); ("dag_id", 2%nat)] |})
  = [("state", 1%nat); ("dag_id", 2%nat)].
Proof.
  destruct (clean_column_names_values nat nat
              {| CustomSQLAInterface.list_properties := [("_state", 1%nat)];
                 CustomSQLAInterface.list_columns :=
                   [("_state", 1%nat); ("dag_id", 2%nat)] |})
    as (_ & _ & _ & H).
  apply H. cbn. apply NoDup_cons. split; [|apply NoDup_singleton].
  intros Hin. apply list_elem_of_singleton in Hin. discriminate Hin.
Defined.

(** X15: cleaning the column names a second time changes nothing. *)
Theorem clean_column_names_idempotent (P C : Type)
    (self : CustomSQLAInterface.column_dicts (P := P) (C := C)) :
  CustomSQLAInterface.clean_column_names
    (CustomSQLAInterface.clean_column_names self)
  = CustomSQLAInterface.clean_column_names self.
Proof.
  assert (Hidem : forall (V : Type) (d : list (string * V)),
    Dict.rekey CustomSQLAInterface.lstrip_underscores
      (Dict.rekey CustomSQLAInterface.lstrip_underscores d)
    = Dict.rekey CustomSQLAInterface.lstrip_underscores d).
  { intros V d.
    destruct (keys_rekey CustomSQLAInterface.lstrip_underscores d) as [Hnd Hk].
    assert (Hid : forall kv,
      kv ∈ Dict.rekey CustomSQLAInterface.lstrip_underscores d ->
      CustomSQLAInterface.lstrip_underscores (fst kv) = fst kv).
    { intros kv Hin. apply lstrip_underscores_id.
      assert (Hkey : fst kv
                ∈ Dict.keys (Dict.rekey CustomSQLAInterface.lstrip_underscores d))
        by (apply list_elem_of_fmap; eauto).
      apply Hk in Hkey. destruct Hkey as (k0 & _ & <-).
      apply lstrip_underscores_clean. }
    revert Hnd Hid.
    generalize (Dict.rekey CustomSQLAInterface.lstrip_underscores d).
    intros d' Hnd Hid. rewrite rekey_no_collision.
    - rewrite <- (map_id d') at 2. apply map_ext_in. intros [k v] Hin.
      cbn. f_equal. apply (Hid (k, v)). now apply list_elem_of_In.
    - replace (map CustomSQLAInterface.lstrip_underscores (Dict.keys d'))
        with (Dict.keys d'); [exact Hnd|].
      unfold Dict.keys. rewrite map_map. apply map_ext_in.
      intros kv Hin. symmetry. apply Hid. now apply list_elem_of_In. }
  unfold CustomSQLAInterface.clean_column_names.
  cbn [CustomSQLAInterface.list_properties CustomSQLAInterface.list_columns].
  rewrite !clean_dict_rekey, !Hidem. reflexivity.
Qed.

(** ** Tag filters and conversion tables *)

(** X16: on any query and for any value, the rows [TagContainsFilter]
    keeps and the rows [TagNotContainsFilter] keeps are the rows of the
    query, each on one side only, whatever the database makes of
    [ILIKE]. *)
Theorem tag_filters_partition (ilike : string -> string -> bool)
    (query : list TagFilters.task_instance) (value : string) :
  let kept := TagFilters.TagContainsFilter_apply ilike query value in
  let dropped := TagFilters.TagNotContainsFilter_apply ilike query value in
  (forall ti, In ti query <-> In ti kept \/ In ti dropped)
  /\ (forall ti, ~ (In ti kept /\ In ti dropped))
  /\ (length kept + length dropped = length query)%nat.
Proof.
  cbn zeta.
  unfold TagFilters.TagContainsFilter_apply, TagFilters.TagNotContainsFilter_apply.
  repeat split.
  - intros Hin. rewrite !filter_In.
    destruct (TagFilters.any_tag_ilike ilike value ti); auto.
  - rewrite !filter_In. tauto.
  - intros ti. rewrite !filter_In. intros [[_ H1] [_ H2]].
    rewrite H1 in H2. discriminate.
  - induction query as [|ti query IH]; [reflexivity|]. cbn [List.filter].
    destruct (TagFilters.any_tag_ilike ilike value ti); cbn [negb length]; lia.
Qed.

(** X17: a task instance without tags is never kept by
    [TagContainsFilter] and always kept by [TagNotContainsFilter],
    whatever the value. *)
Theorem untagged_not_contains (ilike : string -> string -> bool)
    (query : list TagFilters.task_instance) (value : string)
    (ti : TagFilters.task_instance) :
  In ti query -> TagFilters.task_tags ti = [] ->
  ~ In ti (TagFilters.TagContainsFilter_apply ilike query value)
  /\ In ti (TagFilters.TagNotContainsFilter_apply ilike query value).
Proof.
  intros Hin Htags.
  unfold TagFilters.TagContainsFilter_apply, TagFilters.TagNotContainsFilter_apply.
  rewrite !filter_In. unfold TagFilters.any_tag_ilike. rewrite Htags. cbn.
  split; [intros [_ H]; discriminate H | auto].
Qed.

Lemma untagged_not_contains_witness :
  In {| TagFilters.task_id := "t1"; TagFilters.task_tags := [] |}
     (TagFilters.TagNotContainsFilter_apply (fun _ _ => true)
        [ {| TagFilters.task_id := "t1"; TagFilters.task_tags := [] |};
          {| TagFilters.task_id := "t2"; TagFilters.task_tags := ["etl"] |} ]
        "").
Proof.
  apply (untagged_not_contains (fun _ _ => true)
           [ {| TagFilters.task_id := "t1"; TagFilters.task_tags := [] |};
             {| TagFilters.task_id := "t2"; TagFilters.task_tags := ["etl"] |} ]
           "" {| TagFilters.task_id := "t1"; TagFilters.task_tags := [] |}).
  - left. reflexivity.
  - reflexivity.
Defined.

(** X18: the filters offered for a column.  A UTC date column gets the
    four UTC-aware filters, a task tag column that is not one gets the two
    tag filters, and any other column gets what Flask-AppBuilder's own
    table gives; the two Airflow rows come first, so that table cannot
    change the first two answers. *)
Theorem filter_conversion (dm : SQLAInterface) (col_name : string)
    (fab_table : list (string * list UtcAwareFilterConverter.filter)) :
  (is_utcdatetime dm col_name = true ->
     UtcAwareFilterConverter.convert dm col_name
       (UtcAwareFilterConverter.conversion_table fab_table)
     = Some [ UtcAwareFilterConverter.Filter UtcAwareFilterEqual;
              UtcAwareFilterConverter.Filter UtcAwareFilterGreater;
              UtcAwareFilterConverter.Filter UtcAwareFilterSmaller;
              UtcAwareFilterConverter.Filter UtcAwareFilterNotEqual ])
  /\ (is_utcdatetime dm col_name = false -> is_tasktag dm col_name = true ->
     UtcAwareFilterConverter.convert dm col_name
       (UtcAwareFilterConverter.conversion_table fab_table)
     = Some [ UtcAwareFilterConverter.TagContainsFilter;
              UtcAwareFilterConverter.TagNotContainsFilter ])
  /\ (is_utcdatetime dm col_name = false -> is_tasktag dm col_name = false ->
     UtcAwareFilterConverter.convert dm col_name
       (UtcAwareFilterConverter.conversion_table fab_table)
     = UtcAwareFilterConverter.convert dm col_name fab_table).
Proof.
  unfold UtcAwareFilterConverter.conversion_table.
  cbn [app UtcAwareFilterConverter.convert].
  change (call_marker dm "is_utcdatetime" col_name)
    with (is_utcdatetime dm col_name).
  change (call_marker dm "is_tasktag" col_name) with (is_tasktag dm col_name).
  repeat split; intros; repeat match goal with H : _ = _ |- _ => rewrite H end;
    reflexivity.
Qed.

Lemma filter_conversion_witness :
  UtcAwareFilterConverter.convert Examples.task_instance_datamodel "task_tags"
    (UtcAwareFilterConverter.conversion_table [])
  = Some [ UtcAwareFilterConverter.TagContainsFilter;
           UtcAwareFilterConverter.TagNotContainsFilter ].
Proof.
  destruct (filter_conversion Examples.task_instance_datamodel "task_tags" [])
    as (_ & H & _).
  apply H; reflexivity.
Defined.

(** X19: the form field of a column.  A UTC date column gets the date
    field with the Airflow picker, a task tag column that is not one gets
    a text field with the text widget, and any other column gets what
    Flask-AppBuilder's own table gives. *)
Theorem field_conversion (dm : SQLAInterface) (col_name : string)
    (fab_table : list (string * form_field * widget)) :
  (is_utcdatetime dm col_name = true ->
     convert dm col_name (conversion_table fab_table)
     = Some (DateTimeWithTimezoneField, AirflowDateTimePickerWidget))
  /\ (is_utcdatetime dm col_name = false -> is_tasktag dm col_name = true ->
     convert dm col_name (conversion_table fab_table)
     = Some (StringField, BS3TextFieldWidget))
  /\ (is_utcdatetime dm col_name = false -> is_tasktag dm col_name = false ->
     convert dm col_name (conversion_table fab_table)
     = convert dm col_name fab_table).
Proof.
  unfold conversion_table. cbn [app convert].
  change (call_marker dm "is_utcdatetime" col_name)
    with (is_utcdatetime dm col_name).
  change (call_marker dm "is_tasktag" col_name) with (is_tasktag dm col_name).
  repeat split; intros; repeat match goal with H : _ = _ |- _ => rewrite H end;
    reflexivity.
Qed.

Lemma field_conversion_witness :
  convert Examples.task_instance_datamodel "task_tags" (conversion_table [])
  = Some (StringField, BS3TextFieldWidget).
Proof.
  destruct (field_conversion Examples.task_instance_datamodel "task_tags" [])
    as (_ & H & _).
  apply H; reflexivity.
Defined.

(** ** Small renderers *)

(** X20: [nobr_f] and [state_token] write the tags of their templates and
    no other, whatever the attribute, the state and its colour hold; an
    attribute that is missing shows as [None]. *)
Theorem renderers_markup (attr_name : string) (attr : gmap string string)
    (State_color : option string -> string) (state : option string) :
  count "<" (Html.nobr_f attr_name attr) = 2%nat
  /\ count ">" (Html.nobr_f attr_name attr) = 2%nat
  /\ count "<" (Html.state_token State_color state) = 2%nat
  /\ count ">" (Html.state_token State_color state) = 2%nat
  /\ count (ascii_of_nat 34) (Html.state_token State_color state) = 4%nat
  /\ (attr !! attr_name = None ->
      Html.nobr_f attr_name attr = "<nobr>None</nobr>").
Proof.
  unfold Html.nobr_f, Html.state_token, Markupsafe.attr.
  rewrite !count_append.
  repeat match goal with
         | |- context [count ?c (Markupsafe.escape ?s)] =>
             first [ rewrite (proj1 (escape_clean s))
                   | rewrite (proj1 (proj2 (escape_clean s)))
                   | rewrite (proj1 (proj2 (proj2 (escape_clean s)))) ]
         end.
  repeat split; try reflexivity. intros ->. reflexivity.
Qed.

Lemma renderers_markup_witness :
  Html.nobr_f "run_id" ∅ = "<nobr>None</nobr>".
Proof.
  destruct (renderers_markup "run_id" ∅ (fun _ => "white") None)
    as (_ & _ & _ & _ & _ & H).
  apply H. reflexivity.
Defined.

(** ** The migration, continued *)

(** In this model of the schema, [downgrade] succeeds exactly when the
    table and the sequence exist and no other table draws a default from
    the sequence. *)
Lemma downgrade_ok (s s' : schema) :
  downgrade s = Ok s'
  <-> is_Some (tables s !! "task_tag") /\ tag_id_sequence ∈ sequences s
      /\ sequence_in_use tag_id_sequence
           {| sequences := sequences s;
              tables := delete "task_tag" (tables s) |} = false
      /\ s' = {| sequences := sequences s ∖ {[ tag_id_sequence ]};
                 tables := delete "task_tag" (tables s) |}.
Proof.
  unfold downgrade, downgrade_statements, run, execute, bind.
  case_bool_decide as Htab; [|split; [discriminate | tauto]].
  cbn [sequences tables]. case_bool_decide as Hseq; cbn [negb];
    [|split; [discriminate | tauto]].
  destruct (sequence_in_use _ _) eqn:Huse.
  - split; [discriminate|]. intros (_ & _ & H & _). discriminate H.
  - split.
    + intros [= <-]. auto.
    + intros (_ & _ & _ & ->). reflexivity.
Qed.



(** X22: a successful [upgrade] leaves every other table and every other
    sequence as it was, and cannot be run again: the second run raises on
    the sequence that now exists. *)
Theorem upgrade_frame (s s' : schema) :
  upgrade s = Ok s' ->
  (forall name, name <> "task_tag" -> tables s' !! name = tables s !! name)
  /\ (forall seq, seq <> tag_id_sequence ->
        seq ∈ sequences s' <-> seq ∈ sequences s)
  /\ upgrade s' = Raise (DatabaseError "sequence already exists").
Proof.
  intros H. apply upgrade_ok in H. destruct H as (Hseq & Htab & ->).
  cbn [sequences tables]. split; [|split].
  - intros name Hne. now rewrite lookup_insert_ne.
  - intros seq Hne. rewrite elem_of_union, elem_of_singleton. tauto.
  - unfold upgrade, upgrade_statements, run, execute, bind.
    cbn [sequences]. rewrite bool_decide_eq_true_2; [reflexivity|].
    apply elem_of_union. left. now apply elem_of_singleton.
Qed.

Lemma upgrade_frame_witness :
  upgrade Examples.upgraded_schema
  = Raise (DatabaseError "sequence already exists").
Proof. apply (upgrade_frame empty_schema Examples.upgraded_schema). reflexivity. Defined.

(** X23: the other round trip.  Where [downgrade] succeeds on a schema
    whose table [task_tag] is the one the migration defines, [upgrade]
    then succeeds and gives that schema back. *)
Theorem downgrade_upgrade (s s' : schema) :
  downgrade s = Ok s' -> tables s !! "task_tag" = Some task_tag ->
  upgrade s' = Ok s.
Proof.
  intros H Htab. apply downgrade_ok in H. destruct H as (_ & Hseq & _ & ->).
  apply upgrade_ok. cbn [sequences tables]. split; [|split].
  - rewrite elem_of_difference, elem_of_singleton. tauto.
  - apply lookup_delete_eq.
  - destruct s as [seqs tabs]. cbn [sequences tables] in *. f_equal.
    + apply set_eq. intros x.
      rewrite elem_of_union, elem_of_difference, elem_of_singleton.
      destruct (decide (x = tag_id_sequence)) as [->|Hne]; tauto.
    + rewrite insert_delete_eq. symmetry. now apply insert_id.
Qed.

Lemma downgrade_upgrade_witness :
  upgrade empty_schema = Ok Examples.upgraded_schema.
Proof.
  apply (downgrade_upgrade Examples.upgraded_schema empty_schema); reflexivity.
Defined.
